(** * Deployment-strategy handlers of the MLOps course notebooks

    A shallow embedding of the route handlers of
    [section_4/Deployment Types.ipynb], of the epsilon-greedy loop of
    [section_4/metrics_comparisons.ipynb] and of the example
    [config.yaml] of [section_1/lesson_9], together with the properties
    the course material states about them.

    Python integers are [Z].  A Python [float] is held as the rational
    number its binary64 pattern denotes, so comparisons are exact and
    [int / int] is the correctly rounded quotient.  Exceptions are
    values of [PyResult], which tells apart the instances of
    [Exception] from those of [BaseException] alone; the module-level
    counters of the bandit cell
    and the standard output are threaded through the handlers as
    [Globals]. *)

From stdpp Require Import gmap strings pretty list.
From Stdlib Require Import Ascii ZArith QArith Lia Lqa.

Open Scope Z_scope.

(** ** Exceptions *)

(** An exception object: the class name and the text [str(e)]
    produces. *)
Record PyException := mkExc { exc_class : string; exc_str : string }.

Definition str (e : PyException) : string := exc_str e.

(** How an evaluation ends: with a value, by raising an instance of
    [Exception] ([Raise]), or by raising an instance of
    [BaseException] that is no [Exception] ([RaiseBase]): a
    [KeyboardInterrupt], a [SystemExit], a [GeneratorExit] or an
    instance of a class derived from [BaseException] directly.  An
    [except Exception] clause catches the former and lets the latter
    through. *)
Inductive PyResult (A : Type) : Type :=
| Ok (a : A)
| Raise (e : PyException)
| RaiseBase (e : PyException).
Arguments Ok {A} a.
Arguments Raise {A} e.
Arguments RaiseBase {A} e.

#[global] Instance pyresult_ret : MRet PyResult := @Ok.
#[global] Instance pyresult_bind : MBind PyResult := fun A B k r =>
  match r with
  | Ok a => k a
  | Raise e => Raise e
  | RaiseBase e => RaiseBase e
  end.

Definition ZeroDivisionError : PyException :=
  mkExc "ZeroDivisionError" "division by zero".
Definition OverflowError : PyException :=
  mkExc "OverflowError" "integer division result too large for a float".
Definition KeyboardInterrupt : PyException :=
  mkExc "KeyboardInterrupt" EmptyString.

(** ** Floats *)

Module PyFloat.

(** The value of a finite binary64. *)
Definition float := Q.

Definition DBL_MANT_DIG : Z := 53.
Definition DBL_MIN_EXP : Z := -1021.
Definition DBL_MAX_EXP : Z := 1024.

Definition ltb (x y : float) : bool := negb (Qle_bool y x).
Definition geb (x y : float) : bool := Qle_bool y x.

(** [num / den] rounded to the nearest integer, ties to even
    ([0 <= num], [0 < den]). *)
Definition round_half_even (num den : Z) : Z :=
  let q := num / den in
  match 2 * (num mod den) ?= den with
  | Lt => q
  | Gt => q + 1
  | Eq => if Z.even q then q else q + 1
  end.

(** [floor (log2 (n / d))] for positive [n] and [d]. *)
Definition binade (n d : Z) : Z :=
  let e0 := Z.log2 n - Z.log2 d in
  if n * 2 ^ Z.max 0 (- e0) <? d * 2 ^ Z.max 0 e0 then e0 - 1 else e0.

(** Exponent of the last place of a binary64 in binade [e]; below
    [DBL_MIN_EXP - 1] the spacing is that of the subnormals. *)
Definition quantum (e : Z) : Z :=
  Z.max e (DBL_MIN_EXP - 1) - (DBL_MANT_DIG - 1).

Definition ldexp (m qe : Z) : float :=
  if 0 <=? qe then inject_Z (m * 2 ^ qe) else m # Z.to_pos (2 ^ (- qe)).

(** The binary64 nearest to [n / d] for [0 <= n], [0 < d]; [None] when
    the rounded value does not fit below [2 ^ DBL_MAX_EXP]. *)
Definition nearest (n d : Z) : option float :=
  if n =? 0 then Some 0%Q
  else
    let qe := quantum (binade n d) in
    let m := round_half_even (n * 2 ^ Z.max 0 (- qe)) (d * 2 ^ Z.max 0 qe) in
    let x := ldexp m qe in
    if Qle_bool (inject_Z (2 ^ DBL_MAX_EXP)) x then None else Some x.

(** [a / b] on Python integers. *)
Definition truediv (a b : Z) : PyResult float :=
  if b =? 0 then Raise ZeroDivisionError
  else
    match nearest (Z.abs a) (Z.abs b) with
    | Some x => Ok (if Z.sgn a * Z.sgn b <? 0 then Qopp x else x)
    | None => Raise OverflowError
    end.

(** A decimal literal [n / d] with [d] a power of ten, as the parser
    reads it. *)
Definition literal (n d : Z) : float :=
  match nearest n d with
  | Some x => Qred x
  | None => 0%Q
  end.

(** A value [random()] can return: [k / 2^53]. *)
Definition random_value (k : Z) : float := k # (2 ^ 53).

End PyFloat.

Abbreviation float := PyFloat.float.

(** ** Requests, responses and module state *)

Inductive JsonValue :=
| JInt (n : Z)
| JStr (s : string).

(** A returned [dict], serialised by the framework as a JSON object. *)
Abbreviation Json := (gmap string JsonValue).

(** What a route handler hands back to the framework: the returned
    [dict], the [HTTPException] it raised, or an exception its
    [except] clause did not catch and that leaves the handler as it
    was raised. *)
Inductive Outcome :=
| Respond (body : Json)
| HTTPException (status_code : Z) (detail : string)
| Propagates (e : PyException).

(** The module-level names the handlers rebind (the four counters the
    bandit cell declares [global]) and the lines written by [print]. *)
Record Globals := mkGlobals {
  current_model_correct : Z;
  new_model_correct : Z;
  current_model_count : Z;
  new_model_count : Z;
  stdout : list string
}.

(** The cell's initial assignments. *)
Definition initial_globals : Globals := mkGlobals 0 0 0 0 [].

(** The values the [random] module yields while one request is served:
    the first [random.random()], [random.choice([True, False])] and the
    second [random.random()]. *)
Record Draws := mkDraws {
  first_random : float;
  choice_True_False : bool;
  second_random : float
}.

(** Statements that may raise and may rebind globals; what was rebound
    before a raise stays rebound. *)
Definition Py (A : Type) : Type := Globals -> PyResult A * Globals.

Definition ret {A} (a : A) : Py A := fun g => (Ok a, g).

Definition bind {A B} (m : Py A) (k : A -> Py B) : Py B :=
  fun g =>
    match m g with
    | (Ok a, g') => k a g'
    | (Raise e, g') => (Raise e, g')
    | (RaiseBase e, g') => (RaiseBase e, g')
    end.

Definition lift {A} (r : PyResult A) : Py A := fun g => (r, g).

Definition get : Py Globals := fun g => (Ok g, g).

Definition rebind (f : Globals -> Globals) : Py unit := fun g => (Ok tt, f g).

#[global] Instance py_ret : MRet Py := @ret.
#[global] Instance py_bind : MBind Py := fun A B k m => bind m k.

(** [try: body / except Exception as e: raise HTTPException(400, str(e))]:
    the clause names [Exception], so an exception that is an instance
    of [BaseException] alone is not caught. *)
Definition try_except (body : Py Json) : Globals -> Outcome * Globals :=
  fun g =>
    match body g with
    | (Ok r, g') => (Respond r, g')
    | (Raise e, g') => (HTTPException 400 (str e), g')
    | (RaiseBase e, g') => (Propagates e, g')
    end.

Definition incr_current_model_correct (g : Globals) : Globals :=
  mkGlobals (current_model_correct g + 1) (new_model_correct g)
            (current_model_count g) (new_model_count g) (stdout g).
Definition incr_new_model_correct (g : Globals) : Globals :=
  mkGlobals (current_model_correct g) (new_model_correct g + 1)
            (current_model_count g) (new_model_count g) (stdout g).
Definition incr_current_model_count (g : Globals) : Globals :=
  mkGlobals (current_model_correct g) (new_model_correct g)
            (current_model_count g + 1) (new_model_count g) (stdout g).
Definition incr_new_model_count (g : Globals) : Globals :=
  mkGlobals (current_model_correct g) (new_model_correct g)
            (current_model_count g) (new_model_count g + 1) (stdout g).
Definition print (line : string) (g : Globals) : Globals :=
  mkGlobals (current_model_correct g) (new_model_correct g)
            (current_model_count g) (new_model_count g) (stdout g ++ [line]).

(** ** The deployment notebook *)

Definition canary_percentage : float := PyFloat.literal 1 10.
Definition epsilon : float := PyFloat.literal 1 10.

(** [rate = correct / count if count > 0 else 0] *)
Definition success_rate (correct count : Z) : PyResult float :=
  if 0 <? count then PyFloat.truediv correct count else Ok 0%Q.

Section Deployment.

(** A JSON value of the [features] list, and the one-row array built
    from the list. *)
Variables Feature ndarray : Type.

Record InputData := mkInputData { features : list Feature }.

(** A fitted classifier; [predict m row] is [m.predict(row)[0]].  The
    two models are the ones the notebook fits on the labels of
    [make_classification] and saves with [joblib.dump]: a prediction
    is an integer label. *)
Record Classifier := mkClassifier { predict : ndarray -> PyResult Z }.

(** [int(prediction)] on an integer label: the label itself; the
    conversion of such a label raises nothing. *)
Definition int (prediction : Z) : PyResult Z := Ok prediction.

(** [np.array(data.features).reshape(1, -1)] *)
Variable reshape_row : list Feature -> PyResult ndarray.

(** [joblib.load('current_model.joblib')] and
    [joblib.load('new_model.joblib')] *)
Variables current_model new_model : Classifier.

(** The single-deployment cell loads [new_model.joblib] as [model]. *)
Definition model : Classifier := new_model.

Definition predict_single_body (data : InputData) : Py Json :=
  features ← lift (reshape_row (features data));
  prediction ← lift (predict model features);
  prediction ← lift (int prediction);
  ret {[ "prediction" := JInt prediction ]}.

Definition predict_single (data : InputData) (_ : Draws) :=
  try_except (predict_single_body data).

Definition predict_silent_body (data : InputData) : Py Json :=
  features ← lift (reshape_row (features data));
  current_prediction ← lift (predict current_model features);
  new_prediction ← lift (predict new_model features);
  rebind (print ("Current model prediction: " +:+ pretty current_prediction
                 +:+ ", New model prediction: " +:+ pretty new_prediction));;
  current_prediction ← lift (int current_prediction);
  ret {[ "prediction" := JInt current_prediction ]}.

Definition predict_silent (data : InputData) (_ : Draws) :=
  try_except (predict_silent_body data).

Definition predict_canary_body (data : InputData) (d : Draws) : Py Json :=
  features ← lift (reshape_row (features data));
  '(prediction, model_used) ←
    if PyFloat.ltb (first_random d) canary_percentage then
      prediction ← lift (predict new_model features);
      ret (prediction, "new")
    else
      prediction ← lift (predict current_model features);
      ret (prediction, "current");
  prediction ← lift (int prediction);
  ret (<[ "model_used" := JStr model_used ]>
         {[ "prediction" := JInt prediction ]}).

Definition predict_canary (data : InputData) (d : Draws) :=
  try_except (predict_canary_body data d).

(** The exploit branch of the bandit handler. *)
Definition exploit : Py bool :=
  g ← get;
  current_rate ← lift (success_rate (current_model_correct g)
                                    (current_model_count g));
  new_rate ← lift (success_rate (new_model_correct g)
                                (new_model_count g));
  ret (PyFloat.geb new_rate current_rate).

(** The value assigned to [use_new_model]. *)
Definition use_new_model (d : Draws) : Py bool :=
  if PyFloat.ltb (first_random d) epsilon then
    (* Explore: randomly choose a model *)
    ret (choice_True_False d)
  else
    (* Exploit: choose the model with the higher success rate *)
    exploit.

Definition predict_bandit_body (data : InputData) (d : Draws) : Py Json :=
  features ← lift (reshape_row (features data));
  use_new_model ← use_new_model d;
  '(prediction, model_used) ←
    if (use_new_model : bool) then
      prediction ← lift (predict new_model features);
      rebind incr_new_model_count;;
      ret (prediction, "new")
    else
      prediction ← lift (predict current_model features);
      rebind incr_current_model_count;;
      ret (prediction, "current");
  (if PyFloat.ltb (second_random d) (PyFloat.literal 8 10) then
     if (use_new_model : bool) then rebind incr_new_model_correct
     else rebind incr_current_model_correct
   else ret tt : Py unit);;
  prediction ← lift (int prediction);
  ret (<[ "model_used" := JStr model_used ]>
         {[ "prediction" := JInt prediction ]}).

Definition predict_bandit (data : InputData) (d : Draws) :=
  try_except (predict_bandit_body data d).

Definition read_root : Json :=
  {[ "message" := JStr "Welcome to the ML Model Deployment API" ]}.

(** The application's route table.  [FastAPI()] registers the routes
    of its own documentation, with the default arguments
    [/openapi.json], [/docs], [/docs/oauth2-redirect] and [/redoc], as
    plain routes, which answer [GET] and [HEAD]; each decorator then
    appends one route with the one method it names.  An endpoint with
    a body is handed the parsed [InputData], the draws of its request
    and the module state; the first two handlers consume no draw. *)
Inductive Method := GET | HEAD | POST.

Definition Method_eqb (m m' : Method) : bool :=
  match m, m' with
  | GET, GET | HEAD, HEAD | POST, POST => true
  | _, _ => false
  end.

Inductive Endpoint :=
| Documentation
| NoBody (f : Json)
| WithBody (f : InputData -> Draws -> Globals -> Outcome * Globals).

Record Route := mkRoute {
  route_methods : list Method;
  route_path : string;
  route_endpoint : Endpoint
}.

Definition accepts (m : Method) (r : Route) : bool :=
  existsb (Method_eqb m) (route_methods r).

(** [FastAPI()] *)
Definition FastAPI : list Route :=
  [ mkRoute [GET; HEAD] "/openapi.json" Documentation;
    mkRoute [GET; HEAD] "/docs" Documentation;
    mkRoute [GET; HEAD] "/docs/oauth2-redirect" Documentation;
    mkRoute [GET; HEAD] "/redoc" Documentation ].

(** [@app.get(path)] and [@app.post(path)] *)
Definition app_get (app : list Route) (path : string) (f : Json)
  : list Route :=
  app ++ [mkRoute [GET] path (NoBody f)].
Definition app_post (app : list Route) (path : string)
  (f : InputData -> Draws -> Globals -> Outcome * Globals) : list Route :=
  app ++ [mkRoute [POST] path (WithBody f)].

Definition app : list Route :=
  let app := FastAPI in
  let app := app_get app "/" read_root in
  let app := app_post app "/predict/single" predict_single in
  let app := app_post app "/predict/silent" predict_silent in
  let app := app_post app "/predict/canary" predict_canary in
  app_post app "/predict/bandit" predict_bandit.

End Deployment.

Arguments mkInputData {Feature} _.
Arguments features {Feature} _.
Arguments mkClassifier {ndarray} _.
Arguments predict {ndarray} _ _.
Arguments predict_single_body {Feature ndarray} _ _ _.
Arguments predict_single {Feature ndarray} _ _ _ _.
Arguments predict_silent_body {Feature ndarray} _ _ _ _.
Arguments predict_silent {Feature ndarray} _ _ _ _ _.
Arguments predict_canary_body {Feature ndarray} _ _ _ _ _.
Arguments predict_canary {Feature ndarray} _ _ _ _ _.
Arguments predict_bandit_body {Feature ndarray} _ _ _ _ _.
Arguments predict_bandit {Feature ndarray} _ _ _ _ _.
Arguments app {Feature ndarray} _ _ _.
Arguments mkRoute {Feature} _ _ _.
Arguments route_methods {Feature} _.
Arguments accepts {Feature} _ _.
Arguments route_path {Feature} _.
Arguments route_endpoint {Feature} _.
Arguments NoBody {Feature} _.
Arguments WithBody {Feature} _.
Arguments Documentation {Feature}.

(** ** The metrics notebook: [multi_armed_bandit] *)

Module Metrics.

Inductive Arm := A | B.

(** The function's local counters. *)
Record Counters := mkCounters {
  model_a_correct : Z;
  model_b_correct : Z;
  model_a_count : Z;
  model_b_count : Z
}.

(** What [np.random] yields in one round: [random()],
    [choice(['A', 'B'])] and the integer behind [randint(0, len(X))]. *)
Record RoundDraws := mkRoundDraws {
  np_random : float;
  np_choice : Arm;
  np_randint : nat
}.

Definition ValueError (msg : string) : PyException := mkExc "ValueError" msg.
Definition IndexError (msg : string) : PyException := mkExc "IndexError" msg.

(** The exploit branch of one round. *)
Definition exploit (c : Counters) : PyResult Arm :=
  model_a_rate ← success_rate (model_a_correct c) (model_a_count c);
  model_b_rate ← success_rate (model_b_correct c) (model_b_count c);
  mret (if PyFloat.geb model_a_rate model_b_rate then A else B).

Section Bandit.

Variable ndarray : Type.
Variables model_a model_b : Classifier ndarray.

(** [X] by rows, each row as the one-row slice [X[idx:idx+1]]. *)
Variable X : list ndarray.
Variable y : list Z.
Variable epsilon : float.

Definition chosen_model (d : RoundDraws) (c : Counters) : PyResult Arm :=
  if PyFloat.ltb (np_random d) epsilon then mret (np_choice d)
  else exploit c.

(** [np.random.randint(0, len(X))]; with [len(X)] at 0 numpy refuses
    the upper bound. *)
Definition randint (d : RoundDraws) : PyResult nat :=
  match X with
  | [] => Raise (ValueError "high <= 0")
  | _ :: _ => mret (np_randint d `mod` length X)%nat
  end.

(** [x, true_y = X[idx:idx+1], y[idx]] for an index below [len(X)], as
    [randint] yields it: the slice raises nothing and [y[idx]] raises
    when [y] is shorter than [X]. *)
Definition sample (idx : nat) : PyResult (ndarray * Z) :=
  match X !! idx, y !! idx with
  | Some x, Some true_y => mret (x, true_y)
  | _, _ =>
      Raise (IndexError ("index " +:+ pretty (Z.of_nat idx)
                         +:+ " is out of bounds for axis 0 with size "
                         +:+ pretty (Z.of_nat (length y))))
  end.

(** The body of the [for] loop. *)
Definition round (d : RoundDraws) (c : Counters) : PyResult Counters :=
  chosen ← chosen_model d c;
  idx ← randint d;
  '(x, true_y) ← sample idx;
  match chosen with
  | A =>
      pred ← predict model_a x;
      mret (mkCounters
              (if pred =? true_y then model_a_correct c + 1
               else model_a_correct c)
              (model_b_correct c) (model_a_count c + 1) (model_b_count c))
  | B =>
      pred ← predict model_b x;
      mret (mkCounters
              (model_a_correct c)
              (if pred =? true_y then model_b_correct c + 1
               else model_b_correct c)
              (model_a_count c) (model_b_count c + 1))
  end.

(** [for _ in range(n_rounds)], the draws of round [i] being
    [draws i]. *)
Fixpoint rounds (draws : nat -> RoundDraws) (n i : nat) (c : Counters)
  : PyResult Counters :=
  match n with
  | O => mret c
  | S n' => c' ← round (draws i) c; rounds draws n' (S i) c'
  end.

(** The loop followed by the two accuracies the report divides out;
    the result carries the four printed quantities unformatted. *)
Definition multi_armed_bandit (draws : nat -> RoundDraws) (n_rounds : Z)
  : PyResult (float * float * Z * Z) :=
  c ← rounds draws (Z.to_nat n_rounds) 0%nat (mkCounters 0 0 0 0);
  accuracy_a ← PyFloat.truediv (model_a_correct c) (model_a_count c);
  accuracy_b ← PyFloat.truediv (model_b_correct c) (model_b_count c);
  mret (accuracy_a, accuracy_b, model_a_count c, model_b_count c).

End Bandit.

End Metrics.

(** ** The lesson's [config.yaml] *)

Module Yaml.

(** What [yaml.safe_load] builds for the documents of the lesson:
    strings, integers, floats and [dict]s in key order. *)
#[warnings="-register-all"] Inductive Value :=
| VStr (s : string)
| VInt (n : Z)
| VFloat (x : float)
| VMap (items : list (string * Value)).

Definition newline : ascii := "010"%char.
Definition dquote : ascii := "034"%char.

Fixpoint split_lines (s : string) : list string :=
  match s with
  | EmptyString => [EmptyString]
  | String c rest =>
      if Ascii.eqb c newline then EmptyString :: split_lines rest
      else
        match split_lines rest with
        | l :: ls => String c l :: ls
        | [] => [String c EmptyString]
        end
  end.

Fixpoint strip_indent (s : string) : nat * string :=
  match s with
  | String " " rest => let '(n, r) := strip_indent rest in (S n, r)
  | _ => (O, s)
  end.

Fixpoint only_spaces (s : string) : bool :=
  match s with
  | EmptyString => true
  | String " " rest => only_spaces rest
  | String _ _ => false
  end.

Definition is_digit (c : ascii) : bool :=
  let n := nat_of_ascii c in (48 <=? n)%nat && (n <=? 57)%nat.

Definition is_key_char (c : ascii) : bool :=
  let n := nat_of_ascii c in
  is_digit c || Ascii.eqb c "_"
  || ((65 <=? n)%nat && (n <=? 90)%nat)
  || ((97 <=? n)%nat && (n <=? 122)%nat).

(** The longest run of decimal digits at the head of [s], read onto
    [acc]: the number, how many digits, and what follows. *)
Fixpoint digits (s : string) (acc : Z) (count : nat) : Z * nat * string :=
  match s with
  | String c rest =>
      if is_digit c
      then digits rest (10 * acc + (Z.of_nat (nat_of_ascii c) - 48)) (S count)
      else (acc, count, s)
  | EmptyString => (acc, count, s)
  end.

Definition leading_zero (s : string) : bool :=
  match s with
  | String "0" (String c _) => is_digit c
  | _ => false
  end.

(** An unquoted scalar: a decimal integer without leading zero, or
    digits, a point and digits. *)
Definition plain_scalar (s : string) : option Value :=
  let '(i, ni, rest) := digits s 0 O in
  if (ni =? 0)%nat || leading_zero s then None
  else
    match rest with
    | EmptyString => Some (VInt i)
    | String "." frac =>
        let '(n, nf, rest') := digits frac i O in
        if (nf =? 0)%nat then None
        else if only_spaces rest'
             then Some (VFloat (PyFloat.literal n (10 ^ Z.of_nat nf)))
             else None
    | String " " rest' => if only_spaces rest' then Some (VInt i) else None
    | _ => None
    end.

(** The text of a double-quoted scalar without escapes, up to the
    closing quote, and what follows it. *)
Fixpoint quoted (s : string) : option (string * string) :=
  match s with
  | EmptyString => None
  | String c rest =>
      if Ascii.eqb c dquote then Some (EmptyString, rest)
      else if Ascii.eqb c "\" then None
      else
        match quoted rest with
        | Some (body, after) => Some (String c body, after)
        | None => None
        end
  end.

Definition scalar (s : string) : option Value :=
  match s with
  | String c rest =>
      if Ascii.eqb c dquote then
        match quoted rest with
        | Some (body, after) =>
            if only_spaces after then Some (VStr body) else None
        | None => None
        end
      else plain_scalar s
  | EmptyString => None
  end.

Fixpoint take_key (s : string) : string * string :=
  match s with
  | String c rest =>
      if is_key_char c
      then let '(k, r) := take_key rest in (String c k, r)
      else (EmptyString, s)
  | EmptyString => (EmptyString, s)
  end.

(** Plain scalars the loader does not read as strings. *)
Definition reserved_words : list string :=
  [ "yes"; "Yes"; "YES"; "no"; "No"; "NO"; "true"; "True"; "TRUE";
    "false"; "False"; "FALSE"; "on"; "On"; "ON"; "off"; "Off"; "OFF";
    "null"; "Null"; "NULL" ].

(** A key the loader reads as a string: it starts with a letter or an
    underscore and is no reserved word. *)
Definition string_key (k : string) : bool :=
  match k with
  | String c _ => negb (is_digit c) && negb (bool_decide (k ∈ reserved_words))
  | EmptyString => false
  end.

(** One line of a block mapping: [key: scalar], or [key:] opening a
    nested mapping. *)
Record Entry := mkEntry {
  entry_indent : nat;
  entry_key : string;
  entry_value : option Value
}.

(** [Some None] for a blank line or a comment, [None] for a line
    outside the fragment handled here. *)
Definition lex_line (line : string) : option (option Entry) :=
  let '(n, body) := strip_indent line in
  match body with
  | EmptyString => Some None
  | String "#" _ => Some None
  | _ =>
      match take_key body with
      | (k, String ":" after) =>
          if negb (string_key k) then None
          else if only_spaces after then Some (Some (mkEntry n k None))
          else
            match after with
            | String " " text =>
                match scalar (snd (strip_indent text)) with
                | Some v => Some (Some (mkEntry n k (Some v)))
                | None => None
                end
            | _ => None
            end
      | _ => None
      end
  end.

Fixpoint lex (lines : list string) : option (list Entry) :=
  match lines with
  | [] => Some []
  | l :: ls =>
      match lex_line l, lex ls with
      | Some (Some e), Some es => Some (e :: es)
      | Some None, Some es => Some es
      | _, _ => None
      end
  end.

(** The mapping whose entries sit at column [indent], and the entries
    left once it ends. *)
Fixpoint block (fuel : nat) (indent : nat) (es : list Entry)
  : option (list (string * Value) * list Entry) :=
  match fuel with
  | O => None
  | S fuel' =>
      match es with
      | [] => Some ([], [])
      | e :: rest =>
          if (entry_indent e <? indent)%nat then Some ([], es)
          else if (indent <? entry_indent e)%nat then None
          else
            match entry_value e with
            | Some v =>
                match block fuel' indent rest with
                | Some (items, rest') => Some ((entry_key e, v) :: items, rest')
                | None => None
                end
            | None =>
                match rest with
                | e' :: _ =>
                    if (indent <? entry_indent e')%nat then
                      match block fuel' (entry_indent e') rest with
                      | Some (sub, rest1) =>
                          match block fuel' indent rest1 with
                          | Some (items, rest2) =>
                              Some ((entry_key e, VMap sub) :: items, rest2)
                          | None => None
                          end
                      | None => None
                      end
                    else None
                | [] => None
                end
            end
      end
  end.

Fixpoint unique_keys (v : Value) : bool :=
  match v with
  | VMap items =>
      bool_decide (NoDup (map fst items))
      && forallb (fun kv => unique_keys (snd kv)) items
  | _ => true
  end.

(** [yaml.safe_load] on a document that is a block mapping of the
    fragment above; [None] outside it. *)
Definition safe_load (text : string) : option Value :=
  match lex (split_lines text) with
  | Some es =>
      match block (S (length es)) O es with
      | Some (items, []) =>
          if unique_keys (VMap items) then Some (VMap items) else None
      | _ => None
      end
  | None => None
  end.

Definition KeyError (k : string) : PyException :=
  mkExc "KeyError" ("'" +:+ k +:+ "'").
Definition TypeError (msg : string) : PyException := mkExc "TypeError" msg.

(** [config[k]] *)
Definition getitem (config : Value) (k : string) : PyResult Value :=
  match config with
  | VMap items =>
      match list_find (fun kv => fst kv = k) items with
      | Some (_, (_, v)) => Ok v
      | None => Raise (KeyError k)
      end
  | _ => Raise (TypeError "indices must be integers")
  end.

Definition keys (config : Value) : list string :=
  match config with
  | VMap items => map fst items
  | _ => []
  end.

Definition q (s : string) : string :=
  String dquote s +:+ String dquote EmptyString.

Definition unlines (ls : list string) : string :=
  String.concat (String newline EmptyString) ls.

(** The document shown in [cheat_sheet.MD] and again, line for line,
    as the result of [exercise.MD]. *)
Definition config_yaml : string := unlines [
  "project_name: " +:+ q "my_ml_project";
  EmptyString;
  "experiment:";
  "  name: " +:+ q "baseline_model";
  "  type: " +:+ q "classification";
  EmptyString;
  "data:";
  "  source: " +:+ q "data/iris.csv";
  "  validation_split: 0.2";
  "  test_split: 0.1";
  EmptyString;
  "model:";
  "  type: " +:+ q "random_forest";
  "  hyperparameters:";
  "    n_estimators: 100";
  "    max_depth: 5";
  "    random_state: 42";
  EmptyString;
  "output:";
  "  model_path: " +:+ q "models/";
  "  logs_path: " +:+ q "logs/"
].

End Yaml.

(** ** Vocabulary of the properties *)

Section Runs.

Context {Feature ndarray : Type}.
Variable reshape_row : list Feature -> PyResult ndarray.
Variables current_model new_model : Classifier ndarray.

(** The four prediction handlers and the bodies of their [try] blocks. *)
Inductive Handler := Single | Silent | Canary | Bandit.

Definition body_of (h : Handler) (data : InputData Feature) (d : Draws)
  : Py Json :=
  match h with
  | Single => predict_single_body reshape_row new_model data
  | Silent => predict_silent_body reshape_row current_model new_model data
  | Canary => predict_canary_body reshape_row current_model new_model data d
  | Bandit => predict_bandit_body reshape_row current_model new_model data d
  end.

Definition handler_of (h : Handler) (data : InputData Feature) (d : Draws)
  : Globals -> Outcome * Globals :=
  match h with
  | Single => predict_single reshape_row new_model data d
  | Silent => predict_silent reshape_row current_model new_model data d
  | Canary => predict_canary reshape_row current_model new_model data d
  | Bandit => predict_bandit reshape_row current_model new_model data d
  end.

(** Requests served one after another, each to completion.  An
    exception that left a handler uncaught is the server's to deal
    with; the module state is as the handler left it. *)
Fixpoint serve (reqs : list (Handler * InputData Feature * Draws))
  (g : Globals) : list Outcome * Globals :=
  match reqs with
  | [] => ([], g)
  | (h, data, d) :: rest =>
      let '(o, g1) := handler_of h data d g in
      let '(os, g2) := serve rest g1 in
      (o :: os, g2)
  end.

(** The module state after some sequence of requests. *)
Definition reachable (g : Globals) : Prop :=
  exists reqs, snd (serve reqs initial_globals) = g.

Definition is_response (o : Outcome) : bool :=
  match o with
  | Respond _ => true
  | HTTPException _ _ => false
  | Propagates _ => false
  end.

Definition to_bandit (req : InputData Feature * Draws)
  : Handler * InputData Feature * Draws :=
  (Bandit, fst req, snd req).

(** The names of the bandit cell's [global] statement with the value
    each holds. *)
Definition global_counters : list (string * (Globals -> Z)) :=
  [ ("current_model_correct", current_model_correct);
    ("new_model_correct", new_model_correct);
    ("current_model_count", current_model_count);
    ("new_model_count", new_model_count) ].

(** The bandit handler rebinds the global [name]: some request leaves
    it with another value. *)
Definition rebinds (name : string) : Prop :=
  exists proj data d g,
    In (name, proj) global_counters
    /\ proj (snd (predict_bandit reshape_row current_model new_model data d g))
       <> proj g.

End Runs.

(** The success rate as a fraction: [correct / count] for a positive
    count and 0 otherwise. *)
Definition exact_rate (correct count : Z) : Q :=
  if 0 <? count then correct # Z.to_pos count else 0.

(** [m] is [num / den] rounded to the nearest integer, ties to even. *)
Definition nearest_even (num den m : Z) : Prop :=
  Z.abs (2 * num - 2 * den * m) < den
  \/ (Z.abs (2 * num - 2 * den * m) = den /\ Z.even m = true).

(** The counter invariant of the bandit cell. *)
Definition counters_ok (g : Globals) : Prop :=
  0 <= current_model_correct g <= current_model_count g
  /\ 0 <= new_model_correct g <= new_model_count g.

(** Current model = model A, new model = model B. *)
Definition corresponds (g : Globals) (c : Metrics.Counters) : Prop :=
  current_model_correct g = Metrics.model_a_correct c
  /\ current_model_count g = Metrics.model_a_count c
  /\ new_model_correct g = Metrics.model_b_correct c
  /\ new_model_count g = Metrics.model_b_count c.

Definition arm_of (use_new_model : bool) : Metrics.Arm :=
  if use_new_model then Metrics.B else Metrics.A.

(** Small stand-ins used to run the handlers: features are integers,
    the row is the list itself, a classifier is a constant label. *)
Module Demo.

Definition reshape_row (l : list Z) : PyResult (list Z) := Ok l.
Definition constant (label : Z) : Classifier (list Z) :=
  mkClassifier (fun _ => Ok label).
Definition current_model : Classifier (list Z) := constant 0.
Definition new_model : Classifier (list Z) := constant 1.
Definition data : InputData Z := mkInputData [1; 2; 3].

(** Draws taking the exploit branch with positive feedback. *)
Definition exploit_draws : Draws := mkDraws (1 # 2) false (1 # 2).
(** Draws exploring towards the current model, with positive feedback. *)
Definition explore_current : Draws := mkDraws 0%Q false (1 # 2).
(** Draws exploring towards the new model, with negative feedback. *)
Definition explore_new_miss : Draws := mkDraws 0%Q true (9 # 10).
(** Draws sending a canary request to the new model. *)
Definition canary_draws : Draws := mkDraws (1 # 20) false 0%Q.

(** Counters after some traffic: the current model at 3 of 4, the new
    model at 1 of 2. *)
Definition some_globals : Globals := mkGlobals 3 1 4 2 [].

Definition three_requests : list (InputData Z * Draws) :=
  [ (data, exploit_draws); (data, explore_current); (data, explore_new_miss) ].

(** A classifier interrupted from the keyboard on every row. *)
Definition interrupted_model : Classifier (list Z) :=
  mkClassifier (fun _ => RaiseBase KeyboardInterrupt).

(** A classifier that rejects every row. *)
Definition failing_model : Classifier (list Z) :=
  mkClassifier (fun _ => Raise (mkExc "ValueError" "X has 3 features")).

End Demo.

(** ** The rest of the metrics notebook *)

(** [n] in decimal, padded with zeros on the left to four digits. *)
Definition four_digits (n : Z) : string :=
  let s := pretty n in
  String.concat EmptyString (replicate (4 - String.length s) "0"%string)
  +:+ s.

(** The magnitude of [x] in ten-thousandths, rounded to the nearest
    integer, ties to even. *)
Definition ten_thousandths (x : float) : Z :=
  PyFloat.round_half_even (Z.abs (Qnum x) * 10000) (Z.pos (Qden x)).

(** [f"{x:.4f}"]: the nearest decimal with four places, ties to even. *)
Definition format_4f (x : float) : string :=
  let r := ten_thousandths x in
  let s := pretty (r / 10000) +:+ "." +:+ four_digits (r mod 10000) in
  if Qnum x <? 0 then "-" +:+ s else s.

Section ABTest.

(** [sklearn.metrics.accuracy_score(y_true, y_pred)] *)
Variable accuracy_score : list Z -> list Z -> PyResult float.

(** The lines [ab_test] prints; nothing is printed when one of the two
    scores raises. *)
Definition ab_test (model_a_preds model_b_preds true_labels : list Z)
  : PyResult (list string) :=
  model_a_accuracy ← accuracy_score true_labels model_a_preds;
  model_b_accuracy ← accuracy_score true_labels model_b_preds;
  mret [ "Model A Accuracy: " +:+ format_4f model_a_accuracy;
         "Model B Accuracy: " +:+ format_4f model_b_accuracy;
         if PyFloat.ltb model_b_accuracy model_a_accuracy then
           "Model A (Logistic Regression) performs better."
         else if PyFloat.ltb model_a_accuracy model_b_accuracy then
           "Model B (Random Forest) performs better."
         else
           "Both models perform equally." ].

End ABTest.

Section BanditReport.

Variable ndarray : Type.
Variables model_a model_b : Classifier ndarray.
Variable X : list ndarray.
Variable y : list Z.
Variable epsilon : float.

(** What a call of [multi_armed_bandit] writes to standard output and
    how it ends: the report is printed line by line, each accuracy
    being divided out as its line is reached. *)
Definition multi_armed_bandit_stdout (draws : nat -> Metrics.RoundDraws)
  (n_rounds : Z) : list string * PyResult unit :=
  match Metrics.rounds ndarray model_a model_b X y epsilon draws
          (Z.to_nat n_rounds) 0%nat (Metrics.mkCounters 0 0 0 0) with
  | Raise e => ([], Raise e)
  | RaiseBase e => ([], RaiseBase e)
  | Ok c =>
      match PyFloat.truediv (Metrics.model_a_correct c)
                            (Metrics.model_a_count c) with
      | Raise e => ([], Raise e)
      | RaiseBase e => ([], RaiseBase e)
      | Ok accuracy_a =>
          let line_a := "Model A (Logistic Regression) accuracy: "
                        +:+ format_4f accuracy_a in
          match PyFloat.truediv (Metrics.model_b_correct c)
                                (Metrics.model_b_count c) with
          | Raise e => ([line_a], Raise e)
          | RaiseBase e => ([line_a], RaiseBase e)
          | Ok accuracy_b =>
              ([ line_a;
                 "Model B (Random Forest) accuracy: " +:+ format_4f accuracy_b;
                 "Model A was chosen " +:+ pretty (Metrics.model_a_count c)
                 +:+ " times";
                 "Model B was chosen " +:+ pretty (Metrics.model_b_count c)
                 +:+ " times" ],
               Ok tt)
          end
      end
  end.

End BanditReport.

Arguments multi_armed_bandit_stdout {ndarray} _ _ _ _ _ _ _.

(** ** Vocabulary of the further properties *)

Section MoreRuns.

Context {Feature ndarray : Type}.

(** How many of the requests of a run were sent to [/predict/silent]
    and answered. *)
Fixpoint silent_answers (reqs : list (Handler * InputData Feature * Draws))
  (outs : list Outcome) : nat :=
  match reqs, outs with
  | (Silent, _, _) :: reqs', o :: outs' =>
      ((if is_response o then 1 else 0) + silent_answers reqs' outs')%nat
  | _ :: reqs', _ :: outs' => silent_answers reqs' outs'
  | _, _ => O
  end.

Definition handler_name (req : Handler * InputData Feature * Draws)
  : Handler :=
  fst (fst req).

(** An outcome that is no response, or a response naming [used]. *)
Definition names_model (used : string) (o : Outcome) : Prop :=
  forall body, o = Respond body -> body !! "model_used" = Some (JStr used).

End MoreRuns.

(** The bandit handler takes the explore branch and the coin falls on
    [use_new]. *)
Definition explores_to (use_new : bool) (d : Draws) : Prop :=
  PyFloat.ltb (first_random d) epsilon = true
  /\ choice_True_False d = use_new.

(** A round of [multi_armed_bandit] takes the explore branch and the
    coin falls on model B. *)
Definition explores_b (epsilon : float) (d : Metrics.RoundDraws) : Prop :=
  PyFloat.ltb (Metrics.np_random d) epsilon = true
  /\ Metrics.np_choice d = Metrics.B.

(** The bandit counters of two module states agree. *)
Definition same_counters (g g' : Globals) : Prop :=
  current_model_correct g' = current_model_correct g
  /\ new_model_correct g' = new_model_correct g
  /\ current_model_count g' = current_model_count g
  /\ new_model_count g' = new_model_count g.

(** The invariant of the counters of [multi_armed_bandit]. *)
Definition arms_ok (c : Metrics.Counters) : Prop :=
  0 <= Metrics.model_a_correct c <= Metrics.model_a_count c
  /\ 0 <= Metrics.model_b_correct c <= Metrics.model_b_count c.

(** More stand-ins: a score that counts agreeing positions, and rounds
    that always exploit on a two-row data set. *)
Module Demo2.

Definition matches (y_true y_pred : list Z) : Z :=
  Z.of_nat (length (List.filter (fun p => fst p =? snd p)
                                (combine y_true y_pred))).

Definition accuracy_score (y_true y_pred : list Z) : PyResult float :=
  PyFloat.truediv (matches y_true y_pred) (Z.of_nat (length y_true)).

Definition X : list (list Z) := [ [1; 2; 3]; [4; 5; 6] ].
Definition y : list Z := [0; 1].
Definition always_exploit (_ : nat) : Metrics.RoundDraws :=
  Metrics.mkRoundDraws (1 # 2) Metrics.B 0.
Definition exploit_then_explore_b (i : nat) : Metrics.RoundDraws :=
  match i with
  | 1%nat => Metrics.mkRoundDraws 0%Q Metrics.B 1
  | _ => Metrics.mkRoundDraws (1 # 2) Metrics.A 0
  end.

Definition silent_then_single : list (Handler * InputData Z * Draws) :=
  [ (Silent, Demo.data, Demo.exploit_draws);
    (Single, Demo.data, Demo.exploit_draws);
    (Silent, Demo.data, Demo.exploit_draws) ].

Definition exploit_requests : list (InputData Z * Draws) :=
  [ (Demo.data, Demo.exploit_draws); (Demo.data, Demo.exploit_draws);
    (Demo.data, mkDraws (9 # 10) false (9 # 10)) ].

(** The current model at 1 of 1, the new model untried. *)
Definition current_leads : Globals := mkGlobals 1 0 1 0 [].

End Demo2.

(** * Properties *)

(** ** Rounded division *)

Example truediv_one_third :
  PyFloat.truediv 1 3 = Ok (6004799503160661 # 18014398509481984).
Proof. reflexivity. Qed.

Example truediv_negative :
  PyFloat.truediv (-2) 3 = Ok (- (6004799503160661 # 9007199254740992))%Q.
Proof. reflexivity. Qed.

Example truediv_tie_to_even :
  PyFloat.truediv (2 ^ 53 + 1) 1 = Ok (inject_Z (2 ^ 53))
  /\ PyFloat.truediv (2 ^ 53 + 3) 1 = Ok (inject_Z (2 ^ 53 + 4)).
Proof. split; vm_compute; reflexivity. Qed.

Example truediv_by_zero : PyFloat.truediv 5 0 = Raise ZeroDivisionError.
Proof. reflexivity. Qed.

Example truediv_too_large :
  PyFloat.truediv (2 ^ 1024) 1 = Raise OverflowError.
Proof. vm_compute. reflexivity. Qed.

Example epsilon_value : epsilon = 3602879701896397 # 36028797018963968.
Proof. reflexivity. Qed.

Example literal_0_8 :
  PyFloat.literal 8 10 = 3602879701896397 # 4503599627370496.
Proof. reflexivity. Qed.

Lemma round_half_even_bounds num den :
  0 < den ->
  2 * den * PyFloat.round_half_even num den - den <= 2 * num
  <= 2 * den * PyFloat.round_half_even num den + den.
Proof.
  intros Hden. unfold PyFloat.round_half_even.
  pose proof (Z.div_mod num den ltac:(lia)) as Hdm.
  pose proof (Z.mod_pos_bound num den Hden) as Hr.
  destruct (Z.compare_spec (2 * (num mod den)) den);
    [destruct (Z.even _)|..]; nia.
Qed.

Lemma round_half_even_nearest num den :
  0 < den -> nearest_even num den (PyFloat.round_half_even num den).
Proof.
  intros Hden. unfold nearest_even, PyFloat.round_half_even.
  pose proof (Z.div_mod num den ltac:(lia)) as Hdm.
  pose proof (Z.mod_pos_bound num den Hden) as Hr.
  destruct (Z.compare_spec (2 * (num mod den)) den) as [Htie|Hlt|Hgt].
  - destruct (Z.even (num / den)) eqn:Heven.
    + right. split; [nia|done].
    + right. split; [nia|].
      rewrite Z.even_add, Heven. reflexivity.
  - left. nia.
  - left. nia.
Qed.

Lemma nearest_even_unique num den m1 m2 :
  0 < den -> nearest_even num den m1 -> nearest_even num den m2 -> m1 = m2.
Proof.
  intros Hden [H1|[H1 E1]] [H2|[H2 E2]]; try nia.
  apply Z.even_spec in E1 as [k1 ->], E2 as [k2 ->]. nia.
Qed.

Lemma nearest_even_scale num1 den1 num2 den2 m :
  0 < den1 -> 0 < den2 -> num1 * den2 = num2 * den1 ->
  nearest_even num1 den1 m -> nearest_even num2 den2 m.
Proof.
  intros H1 H2 Hratio [H|[H E]]; [left|right; split; [|done]]; nia.
Qed.

Lemma round_half_even_ratio num1 den1 num2 den2 :
  0 < den1 -> 0 < den2 -> num1 * den2 = num2 * den1 ->
  PyFloat.round_half_even num1 den1 = PyFloat.round_half_even num2 den2.
Proof.
  intros H1 H2 Hratio.
  apply (nearest_even_unique num2 den2);
    [done| |by apply round_half_even_nearest].
  apply (nearest_even_scale num1 den1); try done.
  by apply round_half_even_nearest.
Qed.

Lemma round_half_even_mono num1 den1 num2 den2 :
  0 < den1 -> 0 < den2 -> num1 * den2 <= num2 * den1 ->
  PyFloat.round_half_even num1 den1 <= PyFloat.round_half_even num2 den2.
Proof.
  intros H1 H2 Hle.
  destruct (Z.le_gt_cases (PyFloat.round_half_even num1 den1)
              (PyFloat.round_half_even num2 den2)) as [|Hgt]; [done|].
  pose proof (round_half_even_bounds num1 den1 H1) as [B1 _].
  pose proof (round_half_even_bounds num2 den2 H2) as [_ B2].
  rewrite (round_half_even_ratio num1 den1 num2 den2) in Hgt; [lia|done..|].
  set (m1 := PyFloat.round_half_even num1 den1) in *.
  set (m2 := PyFloat.round_half_even num2 den2) in *.
  assert (2 * num2 * den1 <= (2 * m2 + 1) * den1 * den2) by nia.
  assert ((2 * m1 - 1) * den1 * den2 <= 2 * num1 * den2) by nia.
  assert ((2 * m2 + 1) * (den1 * den2) <= (2 * m1 - 1) * (den1 * den2)).
  { apply Z.mul_le_mono_nonneg_r; nia. }
  nia.
Qed.

Lemma quantum_neg e : e <= -1 -> -1074 <= PyFloat.quantum e <= -53.
Proof.
  unfold PyFloat.quantum, PyFloat.DBL_MIN_EXP, PyFloat.DBL_MANT_DIG. lia.
Qed.

(** For a quotient below one the binade is [- j] where [j] is the
    least shift bringing [n * 2 ^ j] up to [d]. *)
Lemma binade_below_one n d :
  0 < n < d ->
  exists j, 1 <= j /\ PyFloat.binade n d = - j
    /\ d <= n * 2 ^ j /\ n * 2 ^ (j - 1) < d.
Proof.
  intros H. unfold PyFloat.binade.
  pose proof (Z.log2_le_mono n d ltac:(lia)) as Hl.
  pose proof (Z.log2_spec n ltac:(lia)) as [Hn1 Hn2].
  pose proof (Z.log2_spec d ltac:(lia)) as [Hd1 Hd2].
  pose proof (Z.log2_nonneg n) as HL. pose proof (Z.log2_nonneg d) as HM.
  set (L := Z.log2 n) in *. set (M := Z.log2 d) in *.
  rewrite (Z.max_r 0 (- (L - M))), (Z.max_l 0 (L - M)) by lia.
  rewrite Z.pow_0_r, Z.mul_1_r.
  assert (Hsplit : forall s, 0 <= s -> 2 ^ (L + s) = 2 ^ L * 2 ^ s).
  { intros s Hs. apply Z.pow_add_r; lia. }
  assert (Hpos : forall s, 0 <= s -> 0 < 2 ^ s).
  { intros s Hs. apply Z.pow_pos_nonneg; lia. }
  destruct (Z.ltb_spec (n * 2 ^ (- (L - M))) d) as [Hlt|Hge].
  - exists (1 - (L - M)). split; [lia|]. split; [lia|]. split.
    + replace (Z.succ M) with (L + (1 - (L - M))) in Hd2 by lia.
      rewrite Hsplit in Hd2 by lia.
      pose proof (Hpos (1 - (L - M)) ltac:(lia)). nia.
    + replace (1 - (L - M) - 1) with (- (L - M)) by lia. exact Hlt.
  - assert (L - M <= -1).
    { destruct (Z.eq_dec (L - M) 0) as [E|E]; [|lia].
      rewrite E in Hge. change (- 0) with 0 in Hge.
      rewrite Z.pow_0_r in Hge. lia. }
    exists (- (L - M)). split; [lia|]. split; [lia|]. split; [exact Hge|].
    replace M with (L + (- (L - M) - 1) + 1) in Hd1 by lia.
    rewrite Z.pow_add_r, Hsplit in Hd1 by lia.
    replace (Z.succ L) with (L + 1) in Hn2 by lia.
    rewrite Z.pow_add_r in Hn2 by lia.
    pose proof (Hpos (- (L - M) - 1) ltac:(lia)).
    pose proof (Hpos L ltac:(lia)).
    change (2 ^ 1) with 2 in *. nia.
Qed.

(** Below one the rounded quotient has the shape [m / 2^k] with
    [53 <= k] and lies within half a unit of the last place of the
    exact quotient. *)
Lemma nearest_below_one n d :
  0 < n < d ->
  exists m k, 53 <= k /\ PyFloat.nearest n d = Some (m # Z.to_pos (2 ^ k))
    /\ 2 * d * m - d <= 2 * (n * 2 ^ k) <= 2 * d * m + d.
Proof.
  intros H. unfold PyFloat.nearest.
  destruct (Z.eqb_spec n 0) as [?|_]; [lia|].
  assert (Hq : -1074 <= PyFloat.quantum (PyFloat.binade n d) <= -53).
  { destruct (binade_below_one n d H) as (j & Hj & -> & _).
    apply quantum_neg. lia. }
  set (qe := PyFloat.quantum (PyFloat.binade n d)) in *.
  rewrite (Z.max_l 0 qe), (Z.max_r 0 (- qe)) by lia.
  rewrite Z.pow_0_r, Z.mul_1_r.
  set (m := PyFloat.round_half_even (n * 2 ^ (- qe)) d).
  pose proof (round_half_even_bounds (n * 2 ^ (- qe)) d ltac:(lia)) as Hm.
  fold m in Hm.
  exists m, (- qe). split; [lia|].
  assert (Hpow : 0 < 2 ^ (- qe)) by (apply Z.pow_pos_nonneg; lia).
  split; [|exact Hm].
  unfold PyFloat.ldexp. destruct (Z.leb_spec 0 qe) as [?|_]; [lia|].
  destruct (Qle_bool _ _) eqn:Hov; [|reflexivity].
  exfalso. apply Qle_bool_iff in Hov. unfold Qle in Hov. simpl in Hov.
  rewrite Z2Pos.id in Hov by lia.
  assert (m <= 2 ^ (- qe)) by nia.
  assert (2 ^ 1 <= 2 ^ PyFloat.DBL_MAX_EXP)
    by (apply Z.pow_le_mono_r; unfold PyFloat.DBL_MAX_EXP; lia).
  nia.
Qed.

(** Below one the rounded quotient is [m / 2^k] where [k] follows the
    binade [- j] of the quotient. *)
Lemma nearest_below_one_shape n d :
  0 < n < d ->
  exists j m,
    1 <= j /\ d <= n * 2 ^ j /\ n * 2 ^ (j - 1) < d
    /\ m = PyFloat.round_half_even (n * 2 ^ (Z.min j 1022 + 52)) d
    /\ PyFloat.nearest n d = Some (m # Z.to_pos (2 ^ (Z.min j 1022 + 52))).
Proof.
  intros H.
  destruct (binade_below_one n d H) as (j & Hj & Hb & Hu & Hl).
  destruct (nearest_below_one n d H) as (m & k & Hk & Hn & Hm).
  exists j. eexists. split; [done|]. split; [done|]. split; [done|].
  split; [reflexivity|].
  unfold PyFloat.nearest in *.
  destruct (Z.eqb_spec n 0) as [?|_]; [lia|].
  rewrite Hb in *.
  assert (Hq : PyFloat.quantum (- j) = - (Z.min j 1022 + 52)).
  { unfold PyFloat.quantum, PyFloat.DBL_MIN_EXP, PyFloat.DBL_MANT_DIG. lia. }
  rewrite Hq in *.
  set (k' := Z.min j 1022 + 52) in *.
  rewrite (Z.max_l 0 (- k')), (Z.max_r 0 (- - k')) in * by lia.
  rewrite Z.opp_involutive, Z.pow_0_r, Z.mul_1_r in *.
  destruct (Qle_bool _ _); [done|].
  unfold PyFloat.ldexp. destruct (Z.leb_spec 0 (- k')); [lia|].
  by rewrite Z.opp_involutive.
Qed.

Lemma nearest_one d : 0 < d -> PyFloat.nearest d d = Some (2 ^ 52 # 2 ^ 52).
Proof.
  intros H. unfold PyFloat.nearest, PyFloat.binade.
  destruct (Z.eqb_spec d 0) as [?|_]; [lia|].
  rewrite Z.sub_diag. change (- 0) with 0.
  rewrite Z.max_id, Z.pow_0_r, !Z.mul_1_r, Z.ltb_irrefl.
  change (PyFloat.quantum 0) with (-52).
  change (0 `max` (- (-52))) with 52. change (0 `max` (-52)) with 0.
  rewrite Z.pow_0_r, Z.mul_1_r.
  unfold PyFloat.round_half_even.
  rewrite (Z.mul_comm d (2 ^ 52)), Z.div_mul, Z.mod_mul by lia.
  destruct (Z.compare_spec (2 * 0) d); try lia.
  reflexivity.
Qed.

Lemma nearest_zero d : PyFloat.nearest 0 d = Some 0%Q.
Proof. reflexivity. Qed.

(** Rounding keeps the order of quotients below one. *)
Lemma nearest_mono a b c d x y :
  0 < a < b -> 0 < c < d -> a * d <= c * b ->
  PyFloat.nearest a b = Some x -> PyFloat.nearest c d = Some y ->
  (x <= y)%Q.
Proof.
  intros Hab Hcd Hle.
  destruct (nearest_below_one_shape a b Hab)
    as (j1 & m1 & Hj1 & Hu1 & Hl1 & Hm1 & ->).
  destruct (nearest_below_one_shape c d Hcd)
    as (j2 & m2 & Hj2 & Hu2 & Hl2 & Hm2 & ->).
  intros [= <-] [= <-].
  assert (Hpos : forall s, 0 <= s -> 0 < 2 ^ s).
  { intros s Hs. apply Z.pow_pos_nonneg; lia. }
  assert (Hj : j2 <= j1).
  { destruct (Z.le_gt_cases j2 j1) as [|Hgt]; [done|exfalso].
    assert (2 ^ j1 <= 2 ^ (j2 - 1)) by (apply Z.pow_le_mono_r; lia).
    pose proof (Hpos j1 ltac:(lia)).
    assert (c * b <= c * (a * 2 ^ j1)) by nia.
    assert (a * (c * 2 ^ (j2 - 1)) < a * d) by nia.
    nia. }
  set (k1 := Z.min j1 1022 + 52) in *. set (k2 := Z.min j2 1022 + 52) in *.
  pose proof (Hpos k1 ltac:(lia)) as Hk1.
  pose proof (Hpos k2 ltac:(lia)) as Hk2.
  unfold Qle. cbn [Qnum Qden]. rewrite !Z2Pos.id by lia.
  destruct (Z.eq_dec k1 k2) as [Hk|Hk].
  - rewrite Hk in *. apply Z.mul_le_mono_nonneg_r; [lia|].
    subst m1 m2. apply round_half_even_mono; [lia..|].
    replace (a * 2 ^ k2 * d) with (a * d * 2 ^ k2) by ring.
    replace (c * 2 ^ k2 * b) with (c * b * 2 ^ k2) by ring.
    apply Z.mul_le_mono_nonneg_r; lia.
  - assert (Hk12 : k2 = j2 + 52 /\ k2 + 1 <= k1) by lia.
    destruct Hk12 as [Hk2j Hk21].
    (* [m1 <= 2 ^ (k1 - j2)] and [2 ^ 52 <= m2] *)
    pose proof (round_half_even_bounds (a * 2 ^ k1) b ltac:(lia)) as [B1 _].
    pose proof (round_half_even_bounds (c * 2 ^ k2) d ltac:(lia)) as [_ B2].
    rewrite <- Hm1 in B1. rewrite <- Hm2 in B2.
    assert (Hsplit1 : 2 ^ k1 = 2 ^ j2 * 2 ^ (k1 - j2)).
    { rewrite <- Z.pow_add_r by lia. f_equal. lia. }
    assert (Hsplit2 : 2 ^ k2 = 2 ^ j2 * 2 ^ 52).
    { rewrite <- Z.pow_add_r by lia. f_equal. lia. }
    assert (Hsplit3 : 2 ^ (k1 - j2) * 2 ^ k2 = 2 ^ 52 * 2 ^ k1).
    { rewrite <- !Z.pow_add_r by lia. f_equal. lia. }
    assert (Hmid : 2 ^ j2 <= 2 ^ (j1 - 1)) by (apply Z.pow_le_mono_r; lia).
    pose proof (Hpos j2 ltac:(lia)) as Hpj2.
    pose proof (Hpos (k1 - j2) ltac:(lia)) as HpN.
    assert (Ha : a * 2 ^ j2 < b) by nia.
    assert (Hm1N : m1 <= 2 ^ (k1 - j2)).
    { assert (a * 2 ^ k1 < b * 2 ^ (k1 - j2)) by (rewrite Hsplit1; nia).
      nia. }
    assert (Hm2N : 2 ^ 52 <= m2).
    { assert (d * 2 ^ 52 <= c * 2 ^ k2) by (rewrite Hsplit2; nia).
      nia. }
    assert (m1 * 2 ^ k2 <= 2 ^ (k1 - j2) * 2 ^ k2) by nia.
    assert (2 ^ 52 * 2 ^ k1 <= m2 * 2 ^ k1) by nia.
    lia.
Qed.

(** *** Success rates *)

Lemma success_rate_positive correct count :
  0 <= correct -> 0 < count ->
  success_rate correct count =
  match PyFloat.nearest correct count with
  | Some x => Ok x
  | None => Raise OverflowError
  end.
Proof.
  intros Hc Hn. unfold success_rate, PyFloat.truediv.
  destruct (Z.ltb_spec 0 count) as [_|?]; [|lia].
  destruct (Z.eqb_spec count 0) as [?|_]; [lia|].
  rewrite !Z.abs_eq by lia.
  replace (Z.sgn correct * Z.sgn count <? 0) with false
    by (symmetry; apply Z.ltb_ge; nia).
  reflexivity.
Qed.

(** A rate of a counter pair with [0 <= correct <= count] is always
    computed, and lies between 0 and 1. *)
Lemma success_rate_defined correct count :
  0 <= correct <= count ->
  exists rate, success_rate correct count = Ok rate /\ (0 <= rate <= 1)%Q.
Proof.
  intros H. destruct (Z.lt_ge_cases 0 count) as [Hpos|Hzero].
  2: { unfold success_rate. destruct (Z.ltb_spec 0 count); [lia|].
       exists 0%Q. split; [reflexivity|]. split; discriminate. }
  rewrite success_rate_positive by lia.
  destruct (Z.eq_dec correct 0) as [->|Hc0].
  { exists 0%Q. split; [reflexivity|]. split; discriminate. }
  destruct (Z.eq_dec correct count) as [->|Hne].
  { rewrite nearest_one by lia. eexists. split; [reflexivity|].
    split; discriminate. }
  destruct (nearest_below_one correct count ltac:(lia))
    as (m & k & Hk & -> & Hm).
  eexists. split; [reflexivity|].
  assert (Hpow : 0 < 2 ^ k) by (apply Z.pow_pos_nonneg; lia).
  unfold Qle. cbn [Qnum Qden]. rewrite Z2Pos.id by lia. split; nia.
Qed.

(** The computed rate is within [2^-54] of the fraction. *)
Lemma success_rate_error correct count :
  0 <= correct <= count ->
  exists rate, success_rate correct count = Ok rate
    /\ (rate <= exact_rate correct count + (1 # 2 ^ 54))%Q
    /\ (exact_rate correct count <= rate + (1 # 2 ^ 54))%Q.
Proof.
  intros H. unfold exact_rate.
  destruct (Z.ltb_spec 0 count) as [Hpos|Hzero].
  2: { unfold success_rate. destruct (Z.ltb_spec 0 count); [lia|].
       exists 0%Q. split; [reflexivity|]. split; discriminate. }
  rewrite success_rate_positive by lia.
  destruct (Z.eq_dec correct 0) as [->|Hc0].
  { rewrite nearest_zero. eexists. split; [reflexivity|].
    unfold Qle, Qplus. cbn [Qnum Qden]. split; lia. }
  destruct (Z.eq_dec correct count) as [->|Hne].
  { rewrite nearest_one by lia. eexists. split; [reflexivity|].
    unfold Qle, Qplus. cbn [Qnum Qden].
    rewrite !Pos2Z.inj_mul, !Z2Pos.id by lia. split; nia. }
  destruct (nearest_below_one correct count ltac:(lia))
    as (m & k & Hk & -> & Hm).
  eexists. split; [reflexivity|].
  assert (Hpow : 0 < 2 ^ k) by (apply Z.pow_pos_nonneg; lia).
  assert (Hk53 : 2 ^ 53 <= 2 ^ k) by (apply Z.pow_le_mono_r; lia).
  unfold Qle, Qplus. cbn [Qnum Qden].
  rewrite !Pos2Z.inj_mul, !Z2Pos.id by lia.
  change (Z.pos (2 ^ 54)) with (2 * 2 ^ 53).
  set (P := 2 ^ k) in *. set (E := 2 ^ 53) in *.
  split; nia.
Qed.

(** Whatever the size of the counters, a fraction that is at least
    another has a computed rate that is at least the other's. *)
Lemma rate_order_mono a b c d x y :
  0 <= a <= b -> 0 <= c <= d ->
  (exact_rate a b <= exact_rate c d)%Q ->
  success_rate a b = Ok x -> success_rate c d = Ok y ->
  (x <= y)%Q.
Proof.
  intros Hab Hcd Hle Hx Hy.
  destruct (success_rate_defined a b Hab) as (x' & Hx' & Hx0 & Hx1).
  destruct (success_rate_defined c d Hcd) as (y' & Hy' & Hy0 & Hy1).
  assert (x' = x) by congruence. assert (y' = y) by congruence. subst x' y'.
  destruct (Z.lt_ge_cases 0 b) as [Hb|Hb].
  2: { assert (x = 0%Q); [|by subst].
       unfold success_rate in Hx.
       destruct (Z.ltb_spec 0 b); [lia|congruence]. }
  destruct (Z.eq_dec a 0) as [->|Ha].
  { rewrite success_rate_positive, nearest_zero in Hx by lia.
    assert (x = 0%Q) by congruence. by subst. }
  unfold exact_rate in Hle.
  destruct (Z.ltb_spec 0 b) as [_|?]; [|lia].
  destruct (Z.ltb_spec 0 d) as [Hd|Hd];
    unfold Qle in Hle; cbn [Qnum Qden] in Hle;
    rewrite ?Z2Pos.id in Hle by lia; [|lia].
  destruct (Z.eq_dec c d) as [->|Hcd1].
  { rewrite success_rate_positive, nearest_one in Hy by lia.
    assert (Hone : (y == 1)%Q) by (injection Hy as <-; reflexivity).
    by rewrite Hone. }
  destruct (Z.eq_dec a b) as [->|Hab1]; [nia|].
  rewrite success_rate_positive in Hx, Hy by lia.
  destruct (PyFloat.nearest a b) as [x0|] eqn:Ex; [|done].
  destruct (PyFloat.nearest c d) as [y0|] eqn:Ey; [|done].
  injection Hx as <-. injection Hy as <-.
  apply (nearest_mono a b c d); try done; nia.
Qed.

Lemma success_rate_same_fraction a b c d x y :
  0 <= a <= b -> 0 <= c <= d ->
  (exact_rate a b == exact_rate c d)%Q ->
  success_rate a b = Ok x -> success_rate c d = Ok y ->
  (x == y)%Q.
Proof.
  intros Hab Hcd Heq Hx Hy. apply Qle_antisym.
  - apply (rate_order_mono a b c d); try done. rewrite Heq. apply Qle_refl.
  - apply (rate_order_mono c d a b); try done. rewrite Heq. apply Qle_refl.
Qed.

Lemma exact_rate_gap a b c d :
  0 <= a <= b -> 0 <= c <= d -> b < 2 ^ 26 -> d < 2 ^ 26 ->
  (exact_rate a b < exact_rate c d)%Q ->
  (exact_rate a b + (1 # 2 ^ 52) <= exact_rate c d)%Q.
Proof.
  intros Hab Hcd Hb Hd. unfold exact_rate.
  destruct (Z.ltb_spec 0 b); destruct (Z.ltb_spec 0 d);
    unfold Qlt, Qle, Qplus; cbn [Qnum Qden];
    rewrite ?Pos2Z.inj_mul, ?Z2Pos.id by lia;
    change (Z.pos (2 ^ 52)) with (2 ^ 26 * 2 ^ 26); intros Hlt; nia.
Qed.

(** With both counts below [2^26] the computed rates compare as the
    fractions do. *)
Lemma rate_order_exact a b c d x y :
  0 <= a <= b -> 0 <= c <= d -> b < 2 ^ 26 -> d < 2 ^ 26 ->
  success_rate a b = Ok x -> success_rate c d = Ok y ->
  (x <= y)%Q <-> (exact_rate a b <= exact_rate c d)%Q.
Proof.
  intros Hab Hcd Hb Hd Hx Hy.
  destruct (success_rate_error a b Hab) as (x' & Hx' & Hx1 & Hx2).
  destruct (success_rate_error c d Hcd) as (y' & Hy' & Hy1 & Hy2).
  assert (x' = x) by congruence. assert (y' = y) by congruence. subst x' y'.
  change (1 # 2 ^ 54)%Q with (1 # 18014398509481984)%Q in *.
  destruct (Q_dec (exact_rate a b) (exact_rate c d)) as [[Hlt|Hgt]|Heq].
  - pose proof (exact_rate_gap a b c d Hab Hcd Hb Hd Hlt) as Hgap.
    change (1 # 2 ^ 52)%Q with (1 # 4503599627370496)%Q in Hgap.
    split; intros _; lra.
  - pose proof (exact_rate_gap c d a b Hcd Hab Hd Hb Hgt) as Hgap.
    change (1 # 2 ^ 52)%Q with (1 # 4503599627370496)%Q in Hgap.
    split; intros Hle; exfalso; lra.
  - pose proof (success_rate_same_fraction a b c d x y Hab Hcd Heq Hx Hy) as E.
    split; intros _; [rewrite Heq|rewrite E]; apply Qle_refl.
Qed.

(** For a value [random()] can return, being below the binary64 the
    literal [0.1] denotes is being below one tenth. *)
Lemma random_below_one_tenth k :
  0 <= k < 2 ^ 53 ->
  (PyFloat.random_value k < PyFloat.literal 1 10)%Q
  <-> (PyFloat.random_value k < 1 # 10)%Q.
Proof.
  intros Hk.
  change (PyFloat.literal 1 10)
    with (3602879701896397 # 36028797018963968)%Q.
  unfold PyFloat.random_value, Qlt. cbn [Qnum Qden].
  change (Z.pos (2 ^ 53)) with 9007199254740992.
  change (2 ^ 53) with 9007199254740992 in Hk. lia.
Qed.

(** Past [2^26] two different fractions can round to the same
    binary64: here the second pair has the smaller fraction and the
    same computed rate. *)
Lemma rates_tie_beyond_precision :
  exists rate,
    success_rate 118059956 118059957 = Ok rate
    /\ success_rate 118059955 118059956 = Ok rate
    /\ (exact_rate 118059955 118059956 < exact_rate 118059956 118059957)%Q.
Proof. eexists. repeat split; vm_compute; reflexivity. Qed.

Lemma ltb_false_iff x y : PyFloat.ltb x y = false <-> (y <= x)%Q.
Proof.
  unfold PyFloat.ltb. rewrite negb_false_iff. apply Qle_bool_iff.
Qed.

Lemma geb_true_iff x y : PyFloat.geb x y = true <-> (y <= x)%Q.
Proof. unfold PyFloat.geb. apply Qle_bool_iff. Qed.

(** ** Running the statement monad *)

Ltac run_py :=
  unfold mbind, mret, py_bind, py_ret, pyresult_bind, pyresult_ret,
    bind, ret, lift, rebind, get, int in *.

Lemma try_except_raise (body : Py Json) g e g' :
  body g = (Raise e, g') -> try_except body g = (HTTPException 400 (str e), g').
Proof. unfold try_except. intros ->. reflexivity. Qed.

Lemma try_except_base (body : Py Json) g e g' :
  body g = (RaiseBase e, g') -> try_except body g = (Propagates e, g').
Proof. unfold try_except. intros ->. reflexivity. Qed.

Lemma try_except_inv (body : Py Json) g o g' :
  try_except body g = (o, g') ->
  (exists r, body g = (Ok r, g') /\ o = Respond r)
  \/ (exists e, body g = (Raise e, g') /\ o = HTTPException 400 (str e))
  \/ (exists e, body g = (RaiseBase e, g') /\ o = Propagates e).
Proof.
  unfold try_except. destruct (body g) as [[r|e|e] g1]; intros [= <- <-].
  - left. eauto.
  - right. left. eauto.
  - right. right. eauto.
Qed.

Lemma outcome_pair_inv (o o' : Outcome) (g g' : Globals) :
  (o, g) = (o', g') -> o = o' /\ g = g'.
Proof. intros H. split; congruence. Qed.

Lemma respond_pair_inv (r r' : Json) (g g' : Globals) :
  (Respond r, g) = (Respond r', g') -> r = r' /\ g = g'.
Proof. intros H. split; congruence. Qed.

(** Reads an equation between a computed outcome and an expected one
    without unfolding the response dictionaries. *)
Ltac same_outcome H :=
  first
    [ apply respond_pair_inv in H as [<- <-]
    | apply outcome_pair_inv in H as [<- <-]
    | exfalso; apply outcome_pair_inv in H as [H _]; discriminate H ].

Lemma result_pair_inv (r r' : PyResult Json) (g g' : Globals) :
  (r, g) = (r', g') -> r = r' /\ g = g'.
Proof. intros H. split; congruence. Qed.

Lemma raise_pair_inv (e e' : PyException) (g g' : Globals) :
  (Raise e : PyResult Json, g) = (Raise e', g') -> e = e' /\ g = g'.
Proof. intros H. split; congruence. Qed.

Lemma base_pair_inv (e e' : PyException) (g g' : Globals) :
  (RaiseBase e : PyResult Json, g) = (RaiseBase e', g') -> e = e' /\ g = g'.
Proof. intros H. split; congruence. Qed.

(** The same for the result of a [try] body against a raise. *)
Ltac same_result H :=
  first
    [ apply raise_pair_inv in H as [<- <-]
    | exfalso; apply result_pair_inv in H as [H _]; discriminate H ].
Ltac same_base H :=
  first
    [ apply base_pair_inv in H as [<- <-]
    | exfalso; apply result_pair_inv in H as [H _]; discriminate H ].

Section HandlerProperties.

Context {Feature ndarray : Type}.
Variable reshape_row : list Feature -> PyResult ndarray.
Variables current_model new_model : Classifier ndarray.

Lemma handler_is_try_except h data d g :
  handler_of reshape_row current_model new_model h data d g
  = try_except (body_of reshape_row current_model new_model h data d) g.
Proof. destruct h; reflexivity. Qed.

(** What each [try] body does, read off the library calls it makes. *)

Lemma predict_single_body_spec data g :
  predict_single_body reshape_row new_model data g =
  match reshape_row (features data) with
  | Raise e => (Raise e, g)
  | RaiseBase e => (RaiseBase e, g)
  | Ok row =>
      match predict new_model row with
      | Raise e => (Raise e, g)
      | RaiseBase e => (RaiseBase e, g)
      | Ok p => (Ok {[ "prediction" := JInt p ]}, g)
      end
  end.
Proof.
  unfold predict_single_body, model. run_py.
  destruct (reshape_row _); [|reflexivity..].
  destruct (predict _ _); reflexivity.
Qed.

Lemma predict_silent_body_spec data g :
  predict_silent_body reshape_row current_model new_model data g =
  match reshape_row (features data) with
  | Raise e => (Raise e, g)
  | RaiseBase e => (RaiseBase e, g)
  | Ok row =>
      match predict current_model row with
      | Raise e => (Raise e, g)
      | RaiseBase e => (RaiseBase e, g)
      | Ok current_prediction =>
          match predict new_model row with
          | Raise e => (Raise e, g)
          | RaiseBase e => (RaiseBase e, g)
          | Ok new_prediction =>
              (Ok {[ "prediction" := JInt current_prediction ]},
               print ("Current model prediction: "
                      +:+ pretty current_prediction
                      +:+ ", New model prediction: "
                      +:+ pretty new_prediction) g)
          end
      end
  end.
Proof.
  unfold predict_silent_body. run_py.
  destruct (reshape_row _); [|reflexivity..].
  destruct (predict current_model _); [|reflexivity..].
  destruct (predict new_model _); reflexivity.
Qed.

Lemma predict_canary_body_spec data d g :
  predict_canary_body reshape_row current_model new_model data d g =
  match reshape_row (features data) with
  | Raise e => (Raise e, g)
  | RaiseBase e => (RaiseBase e, g)
  | Ok row =>
      if PyFloat.ltb (first_random d) canary_percentage then
        match predict new_model row with
        | Raise e => (Raise e, g)
        | RaiseBase e => (RaiseBase e, g)
        | Ok p =>
            (Ok (<[ "model_used" := JStr "new" ]>
                   {[ "prediction" := JInt p ]}), g)
        end
      else
        match predict current_model row with
        | Raise e => (Raise e, g)
        | RaiseBase e => (RaiseBase e, g)
        | Ok p =>
            (Ok (<[ "model_used" := JStr "current" ]>
                   {[ "prediction" := JInt p ]}), g)
        end
  end.
Proof.
  unfold predict_canary_body. run_py.
  destruct (reshape_row _); [|reflexivity..].
  destruct (PyFloat.ltb _ _).
  - destruct (predict new_model _); reflexivity.
  - destruct (predict current_model _); reflexivity.
Qed.

Lemma exploit_spec g :
  exploit g =
  (match success_rate (current_model_correct g) (current_model_count g) with
   | Raise e => Raise e
   | RaiseBase e => RaiseBase e
   | Ok current_rate =>
       match success_rate (new_model_correct g) (new_model_count g) with
       | Raise e => Raise e
       | RaiseBase e => RaiseBase e
       | Ok new_rate => Ok (PyFloat.geb new_rate current_rate)
       end
   end, g).
Proof.
  unfold exploit. run_py.
  destruct (success_rate (current_model_correct g) _); [|reflexivity..].
  destruct (success_rate (new_model_correct g) _); reflexivity.
Qed.

Lemma use_new_model_state d g : snd (use_new_model d g) = g.
Proof.
  unfold use_new_model. destruct (PyFloat.ltb _ _).
  - reflexivity.
  - rewrite exploit_spec. reflexivity.
Qed.

Lemma predict_bandit_body_spec data d g :
  predict_bandit_body reshape_row current_model new_model data d g =
  match reshape_row (features data) with
  | Raise e => (Raise e, g)
  | RaiseBase e => (RaiseBase e, g)
  | Ok row =>
      match fst (use_new_model d g) with
      | Raise e => (Raise e, g)
      | RaiseBase e => (RaiseBase e, g)
      | Ok true =>
          match predict new_model row with
          | Raise e => (Raise e, g)
          | RaiseBase e => (RaiseBase e, g)
          | Ok p =>
              (Ok (<[ "model_used" := JStr "new" ]>
                     {[ "prediction" := JInt p ]}),
               if PyFloat.ltb (second_random d) (PyFloat.literal 8 10)
               then incr_new_model_correct (incr_new_model_count g)
               else incr_new_model_count g)
          end
      | Ok false =>
          match predict current_model row with
          | Raise e => (Raise e, g)
          | RaiseBase e => (RaiseBase e, g)
          | Ok p =>
              (Ok (<[ "model_used" := JStr "current" ]>
                     {[ "prediction" := JInt p ]}),
               if PyFloat.ltb (second_random d) (PyFloat.literal 8 10)
               then incr_current_model_correct (incr_current_model_count g)
               else incr_current_model_count g)
          end
      end
  end.
Proof.
  unfold predict_bandit_body.
  pose proof (use_new_model_state d g) as Hst.
  run_py.
  destruct (reshape_row _) as [row|e|e]; [|reflexivity..].
  destruct (use_new_model d g) as [[[|]|e|e] g1]; cbn [snd] in Hst; subst g1;
    cbn [fst]; [| |reflexivity..].
  - destruct (predict new_model row); [|reflexivity..].
    destruct (PyFloat.ltb _ _); reflexivity.
  - destruct (predict current_model row); [|reflexivity..].
    destruct (PyFloat.ltb _ _); reflexivity.
Qed.

(** The same for the handlers, once the [except] clause has run. *)

Lemma predict_single_spec data d g :
  predict_single reshape_row new_model data d g =
  match reshape_row (features data) with
  | Raise e => (HTTPException 400 (str e), g)
  | RaiseBase e => (Propagates e, g)
  | Ok row =>
      match predict new_model row with
      | Raise e => (HTTPException 400 (str e), g)
      | RaiseBase e => (Propagates e, g)
      | Ok p => (Respond {[ "prediction" := JInt p ]}, g)
      end
  end.
Proof.
  unfold predict_single, try_except. rewrite predict_single_body_spec.
  destruct (reshape_row _); [|reflexivity..].
  destruct (predict _ _); reflexivity.
Qed.

Lemma predict_silent_spec data d g :
  predict_silent reshape_row current_model new_model data d g =
  match reshape_row (features data) with
  | Raise e => (HTTPException 400 (str e), g)
  | RaiseBase e => (Propagates e, g)
  | Ok row =>
      match predict current_model row with
      | Raise e => (HTTPException 400 (str e), g)
      | RaiseBase e => (Propagates e, g)
      | Ok current_prediction =>
          match predict new_model row with
          | Raise e => (HTTPException 400 (str e), g)
          | RaiseBase e => (Propagates e, g)
          | Ok new_prediction =>
              (Respond {[ "prediction" := JInt current_prediction ]},
               print ("Current model prediction: "
                      +:+ pretty current_prediction
                      +:+ ", New model prediction: "
                      +:+ pretty new_prediction) g)
          end
      end
  end.
Proof.
  unfold predict_silent, try_except. rewrite predict_silent_body_spec.
  destruct (reshape_row _); [|reflexivity..].
  destruct (predict current_model _); [|reflexivity..].
  destruct (predict new_model _); reflexivity.
Qed.

Lemma predict_canary_spec data d g :
  predict_canary reshape_row current_model new_model data d g =
  match reshape_row (features data) with
  | Raise e => (HTTPException 400 (str e), g)
  | RaiseBase e => (Propagates e, g)
  | Ok row =>
      if PyFloat.ltb (first_random d) canary_percentage then
        match predict new_model row with
        | Raise e => (HTTPException 400 (str e), g)
        | RaiseBase e => (Propagates e, g)
        | Ok p =>
            (Respond (<[ "model_used" := JStr "new" ]>
                        {[ "prediction" := JInt p ]}), g)
        end
      else
        match predict current_model row with
        | Raise e => (HTTPException 400 (str e), g)
        | RaiseBase e => (Propagates e, g)
        | Ok p =>
            (Respond (<[ "model_used" := JStr "current" ]>
                        {[ "prediction" := JInt p ]}), g)
        end
  end.
Proof.
  unfold predict_canary, try_except. rewrite predict_canary_body_spec.
  destruct (reshape_row _); [|reflexivity..].
  destruct (PyFloat.ltb _ _).
  - destruct (predict new_model _); reflexivity.
  - destruct (predict current_model _); reflexivity.
Qed.

Lemma predict_bandit_spec data d g :
  predict_bandit reshape_row current_model new_model data d g =
  match reshape_row (features data) with
  | Raise e => (HTTPException 400 (str e), g)
  | RaiseBase e => (Propagates e, g)
  | Ok row =>
      match fst (use_new_model d g) with
      | Raise e => (HTTPException 400 (str e), g)
      | RaiseBase e => (Propagates e, g)
      | Ok true =>
          match predict new_model row with
          | Raise e => (HTTPException 400 (str e), g)
          | RaiseBase e => (Propagates e, g)
          | Ok p =>
              (Respond (<[ "model_used" := JStr "new" ]>
                          {[ "prediction" := JInt p ]}),
               if PyFloat.ltb (second_random d) (PyFloat.literal 8 10)
               then incr_new_model_correct (incr_new_model_count g)
               else incr_new_model_count g)
          end
      | Ok false =>
          match predict current_model row with
          | Raise e => (HTTPException 400 (str e), g)
          | RaiseBase e => (Propagates e, g)
          | Ok p =>
              (Respond (<[ "model_used" := JStr "current" ]>
                          {[ "prediction" := JInt p ]}),
               if PyFloat.ltb (second_random d) (PyFloat.literal 8 10)
               then incr_current_model_correct (incr_current_model_count g)
               else incr_current_model_count g)
          end
      end
  end.
Proof.
  unfold predict_bandit, try_except. rewrite predict_bandit_body_spec.
  destruct (reshape_row _) as [row|e|e]; [|reflexivity..].
  destruct (fst (use_new_model d g)) as [[|]|e|e]; [| |reflexivity..].
  - destruct (predict new_model row); reflexivity.
  - destruct (predict current_model row); reflexivity.
Qed.

Lemma success_rate_raise correct count e :
  success_rate correct count = Raise e -> 0 < count /\ e = OverflowError.
Proof.
  unfold success_rate, PyFloat.truediv.
  destruct (Z.ltb_spec 0 count) as [Hpos|]; [|done].
  destruct (Z.eqb_spec count 0) as [?|_]; [lia|].
  destruct (PyFloat.nearest _ _); [done|].
  intros [= <-]. done.
Qed.

(** The division raises instances of [Exception] only. *)
Lemma truediv_no_base a b e : PyFloat.truediv a b <> RaiseBase e.
Proof.
  unfold PyFloat.truediv. destruct (b =? 0); [done|].
  by destruct (PyFloat.nearest _ _).
Qed.

Lemma success_rate_no_base correct count e :
  success_rate correct count <> RaiseBase e.
Proof.
  unfold success_rate. destruct (0 <? count); [|done].
  apply truediv_no_base.
Qed.

Lemma use_new_model_raise d g e :
  fst (use_new_model d g) = Raise e -> e = OverflowError.
Proof.
  unfold use_new_model. destruct (PyFloat.ltb _ _); [done|].
  rewrite exploit_spec. cbn [fst].
  destruct (success_rate (current_model_correct g) _) eqn:Hc.
  - destruct (success_rate (new_model_correct g) _) eqn:Hn; [done| |done].
    intros [= <-]. by apply success_rate_raise in Hn as [_ ?].
  - intros [= <-]. by apply success_rate_raise in Hc as [_ ?].
  - done.
Qed.

Lemma use_new_model_no_base d g e :
  fst (use_new_model d g) <> RaiseBase e.
Proof.
  unfold use_new_model. destruct (PyFloat.ltb _ _); [done|].
  rewrite exploit_spec. cbn [fst].
  destruct (success_rate (current_model_correct g) _) eqn:Hc.
  - destruct (success_rate (new_model_correct g) _) eqn:Hn; [done..|].
    intros [= <-]. by apply success_rate_no_base in Hn.
  - done.
  - intros [= <-]. by apply success_rate_no_base in Hc.
Qed.

(** Where the exception a body raises comes from: the bodies raise
    nothing of their own, and an exception raised by the reshaping or
    by a model comes before any rebinding. *)
Lemma body_raise_origin (h : Handler) data d g e g' :
  body_of reshape_row current_model new_model h data d g = (Raise e, g') ->
  reshape_row (features data) = Raise e
  \/ (exists row,
        reshape_row (features data) = Ok row
        /\ (predict current_model row = Raise e
            \/ predict new_model row = Raise e))
  \/ (h = Bandit /\ e = OverflowError).
Proof.
  destruct h; cbn [body_of].
  - rewrite predict_single_body_spec.
    destruct (reshape_row _) as [row|e0|e0] eqn:Hrow;
      [|intros H; same_result H; by left|intros H; same_result H].
    destruct (predict new_model row) as [p|e0|e0] eqn:Hp;
      intros H; same_result H. right. left. eauto.
  - rewrite predict_silent_body_spec.
    destruct (reshape_row _) as [row|e0|e0] eqn:Hrow;
      [|intros H; same_result H; by left|intros H; same_result H].
    destruct (predict current_model row) as [p|e0|e0] eqn:Hp;
      [|intros H; same_result H; right; left; eauto
       |intros H; same_result H].
    destruct (predict new_model row) as [p'|e0|e0] eqn:Hp';
      intros H; same_result H. right. left. eauto.
  - rewrite predict_canary_body_spec.
    destruct (reshape_row _) as [row|e0|e0] eqn:Hrow;
      [|intros H; same_result H; by left|intros H; same_result H].
    destruct (PyFloat.ltb _ _).
    + destruct (predict new_model row) as [p|e0|e0] eqn:Hp;
        intros H; same_result H. right. left. eauto.
    + destruct (predict current_model row) as [p|e0|e0] eqn:Hp;
        intros H; same_result H. right. left. eauto.
  - rewrite predict_bandit_body_spec.
    destruct (reshape_row _) as [row|e0|e0] eqn:Hrow;
      [|intros H; same_result H; by left|intros H; same_result H].
    destruct (fst (use_new_model d g)) as [[|]|e0|e0] eqn:Hchoice.
    + destruct (predict new_model row) as [p|e0|e0] eqn:Hp;
        intros H; same_result H. right. left. eauto.
    + destruct (predict current_model row) as [p|e0|e0] eqn:Hp;
        intros H; same_result H. right. left. eauto.
    + intros H; same_result H. right. right.
      split; [done|]. by apply (use_new_model_raise d g).
    + intros H; same_result H.
Qed.

Lemma body_base_origin (h : Handler) data d g e g' :
  body_of reshape_row current_model new_model h data d g
  = (RaiseBase e, g') ->
  g' = g
  /\ (reshape_row (features data) = RaiseBase e
      \/ exists row,
           reshape_row (features data) = Ok row
           /\ (predict current_model row = RaiseBase e
               \/ predict new_model row = RaiseBase e)).
Proof.
  destruct h; cbn [body_of].
  - rewrite predict_single_body_spec.
    destruct (reshape_row _) as [row|e0|e0] eqn:Hrow;
      [|intros H; same_base H|intros H; same_base H; by split; [|left]].
    destruct (predict new_model row) as [p|e0|e0] eqn:Hp;
      intros H; same_base H. split; [done|]. right. eauto.
  - rewrite predict_silent_body_spec.
    destruct (reshape_row _) as [row|e0|e0] eqn:Hrow;
      [|intros H; same_base H|intros H; same_base H; by split; [|left]].
    destruct (predict current_model row) as [p|e0|e0] eqn:Hp;
      [|intros H; same_base H
       |intros H; same_base H; split; [done|]; right; eauto].
    destruct (predict new_model row) as [p'|e0|e0] eqn:Hp';
      intros H; same_base H. split; [done|]. right. eauto.
  - rewrite predict_canary_body_spec.
    destruct (reshape_row _) as [row|e0|e0] eqn:Hrow;
      [|intros H; same_base H|intros H; same_base H; by split; [|left]].
    destruct (PyFloat.ltb _ _).
    + destruct (predict new_model row) as [p|e0|e0] eqn:Hp;
        intros H; same_base H. split; [done|]. right. eauto.
    + destruct (predict current_model row) as [p|e0|e0] eqn:Hp;
        intros H; same_base H. split; [done|]. right. eauto.
  - rewrite predict_bandit_body_spec.
    destruct (reshape_row _) as [row|e0|e0] eqn:Hrow;
      [|intros H; same_base H|intros H; same_base H; by split; [|left]].
    destruct (fst (use_new_model d g)) as [[|]|e0|e0] eqn:Hchoice.
    + destruct (predict new_model row) as [p|e0|e0] eqn:Hp;
        intros H; same_base H. split; [done|]. right. eauto.
    + destruct (predict current_model row) as [p|e0|e0] eqn:Hp;
        intros H; same_base H. split; [done|]. right. eauto.
    + intros H; same_base H.
    + by apply use_new_model_no_base in Hchoice.
Qed.

(** C3, as the [except] clauses have it.  Whatever instance of
    [Exception] the body of a prediction handler raises is caught and
    re-raised as [HTTPException] with status code 400 and the
    exception's string as detail, the globals being left as the body
    left them; every [HTTPException] a handler raises has status 400
    and carries the string of an [Exception] its body raised.  An
    exception that is an instance of [BaseException] alone is not
    caught: the handler raises no [HTTPException] for it and the
    exception leaves the handler as it was raised, with the globals
    untouched.  The bodies raise nothing of their own: an exception of
    a body is one raised by the reshaping of the features, by a
    model's [predict] or, in the bandit handler, by the integer
    division. *)
Theorem handlers_catch_and_report_400 (h : Handler) data d g :
  (forall e g',
     body_of reshape_row current_model new_model h data d g = (Raise e, g') ->
     handler_of reshape_row current_model new_model h data d g
     = (HTTPException 400 (str e), g'))
  /\ (forall status_code detail g',
        handler_of reshape_row current_model new_model h data d g
        = (HTTPException status_code detail, g') ->
        status_code = 400
        /\ exists e,
             body_of reshape_row current_model new_model h data d g
             = (Raise e, g')
             /\ detail = str e)
  /\ (forall e g',
        body_of reshape_row current_model new_model h data d g
        = (RaiseBase e, g') <->
        handler_of reshape_row current_model new_model h data d g
        = (Propagates e, g'))
  /\ (forall e g',
        body_of reshape_row current_model new_model h data d g
        = (Raise e, g') ->
        reshape_row (features data) = Raise e
        \/ (exists row,
              reshape_row (features data) = Ok row
              /\ (predict current_model row = Raise e
                  \/ predict new_model row = Raise e))
        \/ (h = Bandit /\ e = OverflowError))
  /\ (forall e g',
        body_of reshape_row current_model new_model h data d g
        = (RaiseBase e, g') ->
        g' = g
        /\ (reshape_row (features data) = RaiseBase e
            \/ exists row,
                 reshape_row (features data) = Ok row
                 /\ (predict current_model row = RaiseBase e
                     \/ predict new_model row = RaiseBase e))).
Proof.
  split; [|split; [|split; [|split]]].
  - intros e g' Hbody. rewrite handler_is_try_except.
    by apply try_except_raise.
  - intros code detail g' Hh. rewrite handler_is_try_except in Hh.
    apply try_except_inv in Hh
      as [(r & _ & [=]) | [(e & Hbody & [= -> ->]) | (e & _ & [=])]].
    split; [reflexivity | eauto].
  - intros e g'. rewrite handler_is_try_except. split.
    + apply try_except_base.
    + intros Hh. apply try_except_inv in Hh
        as [(r & _ & [=]) | [(e0 & _ & [=]) | (e0 & Hbody & [= ->])]].
      exact Hbody.
  - intros e g'. apply body_raise_origin.
  - intros e g'. apply body_base_origin.
Qed.


(** *** Counters along a run *)

Lemma exploit_defined g :
  counters_ok g -> exists b, exploit g = (Ok b, g).
Proof.
  intros [Hc Hn]. rewrite exploit_spec.
  destruct (success_rate_defined _ _ Hc) as (cur & -> & _).
  destruct (success_rate_defined _ _ Hn) as (new & -> & _).
  eauto.
Qed.

Lemma predict_bandit_step data d g o g' :
  predict_bandit reshape_row current_model new_model data d g = (o, g') ->
  stdout g' = stdout g
  /\ (counters_ok g -> counters_ok g')
  /\ (if is_response o
      then current_model_count g' + new_model_count g'
           = current_model_count g + new_model_count g + 1
      else g' = g).
Proof.
  rewrite predict_bandit_spec. unfold counters_ok.
  destruct (reshape_row _) as [row| |];
    [|by intros H; same_outcome H..].
  destruct (fst (use_new_model d g)) as [[|]| |];
    [| |by intros H; same_outcome H..].
  - destruct (predict new_model row); intros H; same_outcome H; [|done..].
    destruct (PyFloat.ltb (second_random d) _);
      cbn -[Z.add]; repeat split; lia.
  - destruct (predict current_model row); intros H; same_outcome H; [|done..].
    destruct (PyFloat.ltb (second_random d) _);
      cbn -[Z.add]; repeat split; lia.
Qed.

Lemma handler_preserves_counters h data d g :
  counters_ok g ->
  counters_ok (snd (handler_of reshape_row current_model new_model h data d g)).
Proof.
  intros Hok. destruct h; simpl.
  - rewrite predict_single_spec.
    destruct (reshape_row _); [|done..]. by destruct (predict _ _).
  - rewrite predict_silent_spec.
    destruct (reshape_row _); [|done..].
    destruct (predict current_model _); [|done..].
    by destruct (predict new_model _).
  - rewrite predict_canary_spec.
    destruct (reshape_row _); [|done..].
    destruct (PyFloat.ltb _ _); by destruct (predict _ _).
  - destruct (predict_bandit _ _ _ _ _ _) as [o g'] eqn:Hstep.
    by apply predict_bandit_step in Hstep as (_ & Hinv & _); auto.
Qed.

Lemma serve_preserves_counters reqs g :
  counters_ok g ->
  counters_ok (snd (serve reshape_row current_model new_model reqs g)).
Proof.
  revert g. induction reqs as [|[[h data] d] rest IH]; intros g Hok; [done|].
  simpl.
  pose proof (handler_preserves_counters h data d g Hok) as Hstep.
  destruct (handler_of _ _ _ h data d g) as [o g1]. simpl in Hstep.
  specialize (IH g1 Hstep).
  destruct (serve _ _ _ rest g1) as [os g2]. exact IH.
Qed.

Lemma initial_counters_ok : counters_ok initial_globals.
Proof. unfold counters_ok, initial_globals. simpl. lia. Qed.

Lemma reachable_counters_ok g :
  reachable reshape_row current_model new_model g -> counters_ok g.
Proof.
  intros [reqs <-]. apply serve_preserves_counters, initial_counters_ok.
Qed.

Lemma serve_bandit_counts reqs g outs g' :
  serve reshape_row current_model new_model (map to_bandit reqs) g
  = (outs, g') ->
  forallb is_response outs = true ->
  current_model_count g' + new_model_count g'
  = current_model_count g + new_model_count g + Z.of_nat (length reqs).
Proof.
  revert g outs. induction reqs as [|[data d] rest IH]; intros g outs.
  - simpl. intros [= <- <-] _. lia.
  - simpl.
    destruct (predict_bandit _ _ _ data d g) as [o g1] eqn:Hstep.
    destruct (serve _ _ _ (map to_bandit rest) g1) as [os g2] eqn:Hrest.
    intros [= <- <-]. simpl. intros [Ho Hos]%andb_true_iff.
    apply predict_bandit_step in Hstep as (_ & _ & Hcount).
    rewrite Ho in Hcount.
    specialize (IH g1 os Hrest Hos). lia.
Qed.

(** C8. From the all-zero initial state, after any sequence of
    [/predict/bandit] requests served one after another and all
    answered, each model's [correct] counter is at most its [count]
    counter and the two [count] counters add up to the number of
    requests; and one more answered request leaves the two bounds in
    place and raises that sum by exactly one. *)
Theorem bandit_counter_invariants reqs outs g :
  serve reshape_row current_model new_model (map to_bandit reqs)
        initial_globals = (outs, g) ->
  forallb is_response outs = true ->
  current_model_correct g <= current_model_count g
  /\ new_model_correct g <= new_model_count g
  /\ current_model_count g + new_model_count g = Z.of_nat (length reqs)
  /\ (forall data d body g',
        predict_bandit reshape_row current_model new_model data d g
        = (Respond body, g') ->
        current_model_correct g' <= current_model_count g'
        /\ new_model_correct g' <= new_model_count g'
        /\ current_model_count g' + new_model_count g'
           = current_model_count g + new_model_count g + 1).
Proof.
  intros Hrun Hall.
  assert (Hok : counters_ok g).
  { replace g with (snd (serve reshape_row current_model new_model
                           (map to_bandit reqs) initial_globals))
      by (by rewrite Hrun).
    apply serve_preserves_counters, initial_counters_ok. }
  pose proof (serve_bandit_counts _ _ _ _ Hrun Hall) as Hsum.
  pose proof Hok as [Hc Hn]. simpl in Hsum.
  split; [lia|]. split; [lia|]. split; [lia|].
  intros data d body g' Hstep.
  apply predict_bandit_step in Hstep as (_ & Hinv & Hcount).
  destruct (Hinv Hok) as [Hc' Hn']. simpl in Hcount. lia.
Qed.

(** C9. Computing a success rate never raises [ZeroDivisionError],
    whatever the counters hold: the division runs only under
    [count > 0].  In every state some sequence of requests can
    produce, the exploit branch raises nothing at all.  In the initial
    all-zero state both rates are 0, the comparison [0 >= 0] holds and
    the exploit branch selects the new model. *)
Theorem exploit_never_divides_by_zero :
  (forall correct count e,
     success_rate correct count = Raise e ->
     0 < count /\ e <> ZeroDivisionError)
  /\ (forall g e g', exploit g = (Raise e, g') -> e <> ZeroDivisionError)
  /\ (forall g, reachable reshape_row current_model new_model g ->
       exists b, exploit g = (Ok b, g))
  /\ success_rate (current_model_correct initial_globals)
                  (current_model_count initial_globals) = Ok 0%Q
  /\ success_rate (new_model_correct initial_globals)
                  (new_model_count initial_globals) = Ok 0%Q
  /\ PyFloat.geb 0%Q 0%Q = true
  /\ (forall d, PyFloat.ltb (first_random d) epsilon = false ->
       use_new_model d initial_globals = (Ok true, initial_globals)).
Proof.
  assert (Hrate : forall correct count e,
    success_rate correct count = Raise e ->
    0 < count /\ e <> ZeroDivisionError).
  { intros correct count e [Hpos ->]%success_rate_raise. by split. }
  split; [exact Hrate|]. split.
  { intros g e g'. rewrite exploit_spec.
    destruct (success_rate (current_model_correct g) _) eqn:Hc.
    - destruct (success_rate (new_model_correct g) _) eqn:Hn; [done| |done].
      intros [= <- _]. by apply Hrate in Hn as [_ ?].
    - intros [= <- _]. by apply Hrate in Hc as [_ ?].
    - done. }
  split.
  { intros g Hg. by apply exploit_defined, reachable_counters_ok. }
  repeat split.
  intros d Hd. unfold use_new_model. by rewrite Hd.
Qed.

(** *** The route table *)

Lemma respond_has_prediction h data d g body g' :
  handler_of reshape_row current_model new_model h data d g
  = (Respond body, g') ->
  exists n, body !! "prediction" = Some (JInt n).
Proof.
  destruct h; cbn [handler_of].
  - rewrite predict_single_spec.
    destruct (reshape_row _); [|intros H; same_outcome H..].
    destruct (predict _ _) as [p| |]; intros H; same_outcome H.
    exists p. apply lookup_singleton_eq.
  - rewrite predict_silent_spec.
    destruct (reshape_row _); [|intros H; same_outcome H..].
    destruct (predict current_model _) as [p| |]; [|intros H; same_outcome H..].
    destruct (predict new_model _); intros H; same_outcome H.
    exists p. apply lookup_singleton_eq.
  - rewrite predict_canary_spec.
    destruct (reshape_row _); [|intros H; same_outcome H..].
    destruct (PyFloat.ltb _ _); destruct (predict _ _) as [p| |];
      intros H; same_outcome H; exists p;
      (rewrite lookup_insert_ne by done); apply lookup_singleton_eq.
  - rewrite predict_bandit_spec.
    destruct (reshape_row _); [|intros H; same_outcome H..].
    destruct (fst (use_new_model d g)) as [[|]| |];
      [| |intros H; same_outcome H..];
      destruct (predict _ _) as [p| |];
      intros H; same_outcome H; exists p;
      (rewrite lookup_insert_ne by done); apply lookup_singleton_eq.
Qed.

(** A request whose features reshape and on which both models predict
    is answered, with one of the two predictions. *)
Lemma handler_answers h data d g row p q :
  counters_ok g ->
  reshape_row (features data) = Ok row ->
  predict current_model row = Ok p ->
  predict new_model row = Ok q ->
  exists body g' n,
    handler_of reshape_row current_model new_model h data d g
    = (Respond body, g')
    /\ body !! "prediction" = Some (JInt n)
    /\ (n = p \/ n = q).
Proof.
  intros Hok Hrow Hp Hq. destruct h; cbn [handler_of].
  - rewrite predict_single_spec, Hrow, Hq.
    do 3 eexists. split; [reflexivity|].
    split; [apply lookup_singleton_eq|by right].
  - rewrite predict_silent_spec, Hrow, Hp, Hq.
    do 3 eexists. split; [reflexivity|].
    split; [apply lookup_singleton_eq|by left].
  - rewrite predict_canary_spec, Hrow, Hp, Hq.
    destruct (PyFloat.ltb _ _); do 3 eexists;
      (split; [reflexivity|]);
      (split; [rewrite lookup_insert_ne by done; apply lookup_singleton_eq|]);
      [by right|by left].
  - rewrite predict_bandit_spec, Hrow, Hp, Hq.
    assert (Hchoice : exists b, fst (use_new_model d g) = Ok b).
    { unfold use_new_model. destruct (PyFloat.ltb _ _); [by eexists|].
      destruct (exploit_defined g Hok) as [b ->]. by exists b. }
    destruct Hchoice as [[|] ->]; do 3 eexists;
      (split; [reflexivity|]);
      (split; [rewrite lookup_insert_ne by done; apply lookup_singleton_eq|]);
      [by right|by left].
Qed.


(** *** Silent and canary deployment *)

(** C5, as the handler has it.  [/predict/silent] does not split
    traffic: for every request it answers, both models have predicted
    on the request's row, the response carries the current model's
    prediction and nothing else, and the new model's prediction only
    shows up in the one line written to standard output. *)
Theorem silent_returns_current_prediction data d g body g' :
  predict_silent reshape_row current_model new_model data d g
  = (Respond body, g') ->
  exists row current_prediction new_prediction,
    reshape_row (features data) = Ok row
    /\ predict current_model row = Ok current_prediction
    /\ predict new_model row = Ok new_prediction
    /\ body = {[ "prediction" := JInt current_prediction ]}
    /\ stdout g' = stdout g ++
         [ "Current model prediction: " +:+ pretty current_prediction
           +:+ ", New model prediction: " +:+ pretty new_prediction ].
Proof.
  rewrite predict_silent_spec.
  destruct (reshape_row _) as [row| |]; [|done..].
  destruct (predict current_model row) as [cur| |] eqn:Hc; [|done..].
  destruct (predict new_model row) as [new| |] eqn:Hn; [|done..].
  intros [= <- <-]. exists row, cur, new. done.
Qed.


(** *** The globals of the bandit cell *)

Lemma explore_draw : PyFloat.ltb 0%Q epsilon = true.
Proof. reflexivity. Qed.

Lemma feedback_hit : PyFloat.ltb 0%Q (PyFloat.literal 8 10) = true.
Proof. reflexivity. Qed.

Lemma feedback_miss : PyFloat.ltb 1%Q (PyFloat.literal 8 10) = false.
Proof. reflexivity. Qed.

(** Where both models answer some input, each of the four counters is
    rebound by some request. *)
Lemma each_counter_rebound data row p q name :
  reshape_row (features data) = Ok row ->
  predict current_model row = Ok p ->
  predict new_model row = Ok q ->
  In name (map fst global_counters) ->
  rebinds reshape_row current_model new_model name.
Proof.
  intros Hrow Hp Hq Hname. unfold rebinds.
  assert (Hrun : forall choice second,
    predict_bandit reshape_row current_model new_model data
      (mkDraws 0%Q choice second) initial_globals
    = if choice then
        (Respond (<[ "model_used" := JStr "new" ]>
                    {[ "prediction" := JInt q ]}),
         if PyFloat.ltb second (PyFloat.literal 8 10)
         then incr_new_model_correct (incr_new_model_count initial_globals)
         else incr_new_model_count initial_globals)
      else
        (Respond (<[ "model_used" := JStr "current" ]>
                    {[ "prediction" := JInt p ]}),
         if PyFloat.ltb second (PyFloat.literal 8 10)
         then incr_current_model_correct
                (incr_current_model_count initial_globals)
         else incr_current_model_count initial_globals)).
  { intros choice second. rewrite predict_bandit_spec, Hrow.
    unfold use_new_model.
    cbn [first_random choice_True_False second_random].
    rewrite explore_draw. unfold ret. cbn [fst].
    destruct choice; [by rewrite Hq | by rewrite Hp]. }
  simpl in Hname.
  destruct Hname as [<-|[<-|[<-|[<-|[]]]]].
  - exists current_model_correct, data, (mkDraws 0%Q false 0%Q),
      initial_globals.
    split; [simpl; tauto|]. rewrite Hrun, feedback_hit. simpl. lia.
  - exists new_model_correct, data, (mkDraws 0%Q true 0%Q), initial_globals.
    split; [simpl; tauto|]. rewrite Hrun, feedback_hit. simpl. lia.
  - exists current_model_count, data, (mkDraws 0%Q false 1%Q),
      initial_globals.
    split; [simpl; tauto|]. rewrite Hrun, feedback_miss. simpl. lia.
  - exists new_model_count, data, (mkDraws 0%Q true 1%Q), initial_globals.
    split; [simpl; tauto|]. rewrite Hrun, feedback_miss. simpl. lia.
Qed.

(** C2, as the cell has it.  The bandit handler keeps its state in four
    global counters, a pair of hit counters and a pair of use counters,
    one of each per model: where both models answer some input, the
    globals the handler rebinds are exactly these four names, and it
    leaves the rest of the module state alone; the choice between the
    two models reads nothing but these four. *)
Theorem bandit_state_is_four_counters data row p q :
  reshape_row (features data) = Ok row ->
  predict current_model row = Ok p ->
  predict new_model row = Ok q ->
  map fst global_counters
  = [ "current_model_correct"; "new_model_correct";
      "current_model_count"; "new_model_count" ]
  /\ NoDup (map fst global_counters)
  /\ (forall name,
        rebinds reshape_row current_model new_model name
        <-> In name (map fst global_counters))
  /\ (forall data' d g,
        stdout (snd (predict_bandit reshape_row current_model new_model
                       data' d g)) = stdout g)
  /\ (forall d g1 g2,
        Forall (fun counter => snd counter g1 = snd counter g2)
               global_counters ->
        fst (use_new_model d g1) = fst (use_new_model d g2)).
Proof.
  intros Hrow Hp Hq. split; [reflexivity|]. split.
  { apply (bool_decide_unpack _). vm_compute. exact I. }
  split; [|split].
  - intros name. split.
    + intros (proj & _ & _ & _ & Hin & _).
      apply (in_map fst) in Hin. exact Hin.
    + by apply (each_counter_rebound data row p q).
  - intros data' d g.
    destruct (predict_bandit _ _ _ data' d g) as [o g'] eqn:Hstep.
    by apply predict_bandit_step in Hstep as (Hout & _).
  - intros d g1 g2 Hsame. unfold global_counters in Hsame.
    rewrite !Forall_cons in Hsame. cbn [snd] in Hsame.
    destruct Hsame as (Hcc & Hnc & Hcn & Hnn & _).
    unfold use_new_model.
    destruct (PyFloat.ltb _ _); [reflexivity|].
    rewrite !exploit_spec. cbn [fst]. by rewrite Hcc, Hnc, Hcn, Hnn.
Qed.

End HandlerProperties.

(** ** The two epsilon-greedy exploit branches *)

Lemma metrics_exploit_spec c :
  Metrics.exploit c =
  match success_rate (Metrics.model_a_correct c) (Metrics.model_a_count c) with
  | Raise e => Raise e
  | RaiseBase e => RaiseBase e
  | Ok model_a_rate =>
      match success_rate (Metrics.model_b_correct c) (Metrics.model_b_count c)
      with
      | Raise e => Raise e
      | RaiseBase e => RaiseBase e
      | Ok model_b_rate =>
          Ok (if PyFloat.geb model_a_rate model_b_rate
              then Metrics.A else Metrics.B)
      end
  end.
Proof.
  unfold Metrics.exploit. run_py.
  destruct (success_rate (Metrics.model_a_correct c) _); [|reflexivity..].
  destruct (success_rate (Metrics.model_b_correct c) _); reflexivity.
Qed.

(** C10, as the two branches have it.  With the current model read as
    model A and the new model as model B, on equal counters the
    handler's exploit branch and the exploit branch of
    [multi_armed_bandit] pick corresponding arms whenever the two
    success rates differ; when the rates are equal the handler picks
    the new model and [multi_armed_bandit] picks model A. *)
Theorem exploit_choices_agree_off_ties g c current_rate new_rate :
  corresponds g c ->
  success_rate (current_model_correct g) (current_model_count g)
  = Ok current_rate ->
  success_rate (new_model_correct g) (new_model_count g) = Ok new_rate ->
  (~ (current_rate == new_rate)%Q ->
   exists b, exploit g = (Ok b, g) /\ Metrics.exploit c = Ok (arm_of b))
  /\ ((current_rate == new_rate)%Q ->
      exploit g = (Ok true, g) /\ Metrics.exploit c = Ok Metrics.A).
Proof.
  intros (Hcc & Hcn & Hnc & Hnn) Hcur Hnew.
  rewrite exploit_spec, metrics_exploit_spec.
  rewrite <- Hcc, <- Hcn, <- Hnc, <- Hnn, Hcur, Hnew.
  unfold PyFloat.geb. split.
  - intros Hne. eexists. split; [reflexivity|].
    destruct (Qle_bool current_rate new_rate) eqn:H1;
      destruct (Qle_bool new_rate current_rate) eqn:H2; try reflexivity.
    + apply Qle_bool_iff in H1, H2. destruct Hne. by apply Qle_antisym.
    + exfalso.
      destruct (Qlt_le_dec new_rate current_rate) as [Hlt|Hle].
      * apply Qlt_le_weak, Qle_bool_iff in Hlt. congruence.
      * apply Qle_bool_iff in Hle. congruence.
  - intros Heq.
    assert (H1 : Qle_bool current_rate new_rate = true)
      by (apply Qle_bool_iff; rewrite Heq; apply Qle_refl).
    assert (H2 : Qle_bool new_rate current_rate = true)
      by (apply Qle_bool_iff; rewrite Heq; apply Qle_refl).
    by rewrite H1, H2.
Qed.

(** ** The configuration document *)

(** C7. The example [config.yaml] loads as a mapping whose top-level
    keys are exactly [project_name], [experiment], [data], [model] and
    [output], holding the project name, the experiment's name and type,
    the data source with its two split ratios, the model type with its
    hyperparameters and the two output paths; and
    [config['experiment']['name']] is the string [baseline_model]. *)
Theorem config_yaml_sections :
  exists config,
    Yaml.safe_load Yaml.config_yaml = Some config
    /\ Yaml.keys config
       = [ "project_name"; "experiment"; "data"; "model"; "output" ]
    /\ Yaml.getitem config "project_name" = Ok (Yaml.VStr "my_ml_project")
    /\ Yaml.getitem config "experiment"
       = Ok (Yaml.VMap [ ("name", Yaml.VStr "baseline_model");
                         ("type", Yaml.VStr "classification") ])
    /\ Yaml.getitem config "data"
       = Ok (Yaml.VMap
               [ ("source", Yaml.VStr "data/iris.csv");
                 ("validation_split", Yaml.VFloat (PyFloat.literal 2 10));
                 ("test_split", Yaml.VFloat (PyFloat.literal 1 10)) ])
    /\ Yaml.getitem config "model"
       = Ok (Yaml.VMap
               [ ("type", Yaml.VStr "random_forest");
                 ("hyperparameters",
                  Yaml.VMap [ ("n_estimators", Yaml.VInt 100);
                              ("max_depth", Yaml.VInt 5);
                              ("random_state", Yaml.VInt 42) ]) ])
    /\ Yaml.getitem config "output"
       = Ok (Yaml.VMap [ ("model_path", Yaml.VStr "models/");
                         ("logs_path", Yaml.VStr "logs/") ])
    /\ (experiment ← Yaml.getitem config "experiment";
        Yaml.getitem experiment "name")
       = Ok (Yaml.VStr "baseline_model").
Proof.
  eexists. split; [vm_compute; reflexivity|].
  vm_compute. repeat split.
Qed.

(** ** The properties at work on concrete requests *)

Lemma handlers_catch_and_report_400_witness :
  predict_single Demo.reshape_row Demo.failing_model Demo.data
    Demo.exploit_draws initial_globals
  = (HTTPException 400 "X has 3 features", initial_globals).
Proof.
  exact (proj1 (handlers_catch_and_report_400 Demo.reshape_row
                  Demo.current_model Demo.failing_model Single Demo.data
                  Demo.exploit_draws initial_globals)
               _ _ eq_refl).
Defined.


Lemma bandit_counter_invariants_witness :
  let run := serve Demo.reshape_row Demo.current_model Demo.new_model
               (map to_bandit Demo.three_requests) initial_globals in
  forallb is_response (fst run) = true
  /\ current_model_correct (snd run) <= current_model_count (snd run)
  /\ new_model_correct (snd run) <= new_model_count (snd run)
  /\ current_model_count (snd run) + new_model_count (snd run) = 3.
Proof.
  intros run. split; [reflexivity|].
  destruct (bandit_counter_invariants Demo.reshape_row Demo.current_model
              Demo.new_model Demo.three_requests (fst run) (snd run)
              eq_refl eq_refl) as (Hc & Hn & Hsum & _).
  split; [exact Hc|]. split; [exact Hn|exact Hsum].
Defined.

Lemma exploit_never_divides_by_zero_witness :
  use_new_model Demo.exploit_draws initial_globals
  = (Ok true, initial_globals).
Proof.
  destruct (exploit_never_divides_by_zero Demo.reshape_row
              Demo.current_model Demo.new_model)
    as (_ & _ & _ & _ & _ & _ & Hstart).
  exact (Hstart Demo.exploit_draws eq_refl).
Defined.


Lemma silent_returns_current_prediction_witness :
  exists row current_prediction new_prediction,
    Demo.reshape_row (features Demo.data) = Ok row
    /\ predict Demo.current_model row = Ok current_prediction
    /\ predict Demo.new_model row = Ok new_prediction
    /\ ({[ "prediction" := JInt 0 ]} : Json)
       = {[ "prediction" := JInt current_prediction ]}
    /\ [ "Current model prediction: 0, New model prediction: 1" ]
       = [] ++
         [ "Current model prediction: " +:+ pretty current_prediction
           +:+ ", New model prediction: " +:+ pretty new_prediction ].
Proof.
  exact (silent_returns_current_prediction Demo.reshape_row
           Demo.current_model Demo.new_model Demo.data Demo.exploit_draws
           initial_globals {[ "prediction" := JInt 0 ]}
           (print "Current model prediction: 0, New model prediction: 1"
                  initial_globals)
           eq_refl).
Defined.


Lemma bandit_state_is_four_counters_witness :
  rebinds Demo.reshape_row Demo.current_model Demo.new_model
    "new_model_correct"
  <-> In "new_model_correct"
         [ "current_model_correct"; "new_model_correct";
           "current_model_count"; "new_model_count" ].
Proof.
  destruct (bandit_state_is_four_counters Demo.reshape_row
              Demo.current_model Demo.new_model Demo.data [1; 2; 3] 0 1
              eq_refl eq_refl eq_refl) as (_ & _ & Hnames & _ & _).
  exact (Hnames "new_model_correct").
Defined.

Lemma exploit_choices_agree_off_ties_witness :
  corresponds Demo.some_globals (Metrics.mkCounters 3 1 4 2)
  /\ exists b, exploit Demo.some_globals = (Ok b, Demo.some_globals)
       /\ Metrics.exploit (Metrics.mkCounters 3 1 4 2) = Ok (arm_of b).
Proof.
  assert (Hcorr : corresponds Demo.some_globals (Metrics.mkCounters 3 1 4 2))
    by (repeat split).
  split; [exact Hcorr|].
  refine (proj1 (exploit_choices_agree_off_ties Demo.some_globals
                   (Metrics.mkCounters 3 1 4 2) _ _ Hcorr eq_refl eq_refl) _).
  intros Heq. vm_compute in Heq. discriminate Heq.
Defined.

(** ** Where the text of a property goes beyond the code *)

(** Against C3: an exception of the body that is no instance of
    [Exception] is not turned into an [HTTPException]; a
    [KeyboardInterrupt] raised while the model predicts leaves
    [/predict/single] as it is. *)
Lemma handlers_let_base_exceptions_through :
  ~ forall (h : Handler) (data : InputData Z) d g e g',
      (body_of Demo.reshape_row Demo.current_model Demo.interrupted_model
         h data d g = (Raise e, g')
       \/ body_of Demo.reshape_row Demo.current_model Demo.interrupted_model
            h data d g = (RaiseBase e, g')) ->
      handler_of Demo.reshape_row Demo.current_model Demo.interrupted_model
        h data d g
      = (HTTPException 400 (str e), g').
Proof.
  intros Hcaught.
  specialize (Hcaught Single Demo.data Demo.exploit_draws initial_globals
                KeyboardInterrupt initial_globals (or_intror eq_refl)).
  apply outcome_pair_inv in Hcaught as [Hcaught _].
  discriminate Hcaught.
Qed.

(** Against C2: the handler rebinds four globals, so no two names
    cover them. *)
Lemma bandit_rebinds_more_than_two_globals :
  ~ exists n1 n2 : string,
      forall name,
        rebinds Demo.reshape_row Demo.current_model Demo.new_model name ->
        name = n1 \/ name = n2.
Proof.
  intros (n1 & n2 & Hcover).
  assert (Hall : forall name, In name (map fst global_counters) ->
                              name = n1 \/ name = n2).
  { intros name Hin. apply Hcover.
    by apply (each_counter_rebound Demo.reshape_row Demo.current_model
                Demo.new_model Demo.data [1; 2; 3] 0 1). }
  pose proof (Hall "current_model_correct" ltac:(simpl; tauto)) as H1.
  pose proof (Hall "new_model_correct" ltac:(simpl; tauto)) as H2.
  pose proof (Hall "current_model_count" ltac:(simpl; tauto)) as H3.
  destruct H1 as [E1|E1], H2 as [E2|E2], H3 as [E3|E3]; congruence.
Qed.

(** Against C5: no request to [/predict/silent] is answered with the
    new model's prediction where it differs from the current model's. *)
Lemma silent_never_returns_new_prediction :
  ~ exists (Feature ndarray : Type)
      (reshape_row : list Feature -> PyResult ndarray)
      (current_model new_model : Classifier ndarray)
      data d g body g' row current_prediction new_prediction,
      predict_silent reshape_row current_model new_model data d g
      = (Respond body, g')
      /\ reshape_row (features data) = Ok row
      /\ predict current_model row = Ok current_prediction
      /\ predict new_model row = Ok new_prediction
      /\ new_prediction <> current_prediction
      /\ body !! "prediction" = Some (JInt new_prediction).
Proof.
  intros (Feature & ndarray & reshape_row & current_model & new_model
          & data & d & g & body & g' & row & cur & new
          & Hrun & Hrow & Hcur & Hnew & Hne & Hbody).
  rewrite predict_silent_spec, Hrow, Hcur, Hnew in Hrun.
  injection Hrun as <- _.
  rewrite lookup_singleton_eq in Hbody. congruence.
Qed.

(** Against C10: in the all-zero state the handler's exploit branch
    picks the new model while [multi_armed_bandit]'s picks model A. *)
Lemma exploit_choices_differ_on_ties :
  ~ (forall g c b arm,
       corresponds g c ->
       exploit g = (Ok b, g) ->
       Metrics.exploit c = Ok arm ->
       arm = arm_of b).
Proof.
  intros Hsame.
  assert (Harm : Metrics.A = arm_of true).
  { apply (Hsame initial_globals (Metrics.mkCounters 0 0 0 0)).
    - repeat split.
    - reflexivity.
    - reflexivity. }
  discriminate Harm.
Qed.

(** * Further properties of the deployment notebook *)

Section MoreHandlerProperties.

Context {Feature ndarray : Type}.
Variable reshape_row : list Feature -> PyResult ndarray.
Variables current_model new_model : Classifier ndarray.

(** What one request to a handler other than the bandit does to the
    module state. *)
Lemma plain_handler_state h data d g o g' :
  h <> Bandit ->
  handler_of reshape_row current_model new_model h data d g = (o, g') ->
  same_counters g g'
  /\ exists lines,
       stdout g' = stdout g ++ lines
       /\ length lines
          = match h with
            | Silent => if is_response o then 1 else 0
            | _ => 0
            end%nat.
Proof.
  intros Hh. unfold same_counters. destruct h; [| | |done]; cbn [handler_of].
  - rewrite predict_single_spec.
    destruct (reshape_row _) as [row| |];
      [destruct (predict new_model row)| |];
      intros H; apply outcome_pair_inv in H as [<- <-];
      (split; [done|]); exists []; by rewrite app_nil_r.
  - rewrite predict_silent_spec.
    destruct (reshape_row _) as [row| |];
      [destruct (predict current_model row);
       [destruct (predict new_model row)| |]| |];
      intros H; apply outcome_pair_inv in H as [<- <-];
      (split; [done|]);
      try (exists []; by rewrite app_nil_r).
    eexists [_]. split; reflexivity.
  - rewrite predict_canary_spec.
    destruct (reshape_row _) as [row| |];
      [destruct (PyFloat.ltb _ _); destruct (predict _ row)| |];
      intros H; apply outcome_pair_inv in H as [<- <-];
      (split; [done|]); exists []; by rewrite app_nil_r.
Qed.

Lemma bandit_stdout data d g :
  stdout (snd (predict_bandit reshape_row current_model new_model data d g))
  = stdout g.
Proof.
  destruct (predict_bandit _ _ _ data d g) as [o g'] eqn:Hstep.
  by apply predict_bandit_step in Hstep as (Hout & _).
Qed.

(** X1. Requests to [/predict/single], [/predict/silent] and
    [/predict/canary] never touch the four bandit counters: a run of
    requests none of which goes to [/predict/bandit] leaves them as
    they were, and where none goes to [/predict/silent] either, the
    whole module state is left as it was. *)
Theorem runs_without_bandit_keep_counters reqs g :
  Forall (fun req => handler_name req <> Bandit) reqs ->
  same_counters g (snd (serve reshape_row current_model new_model reqs g))
  /\ (Forall (fun req => handler_name req <> Silent) reqs ->
      snd (serve reshape_row current_model new_model reqs g) = g).
Proof.
  revert g. induction reqs as [|[[h data] d] rest IH]; intros g Hnb.
  { split; [by unfold same_counters|done]. }
  apply Forall_cons in Hnb as [Hh Hrest]. cbn [handler_name fst] in Hh.
  cbn [serve].
  destruct (handler_of _ _ _ h data d g) as [o g1] eqn:Hstep.
  destruct (plain_handler_state h data d g o g1 Hh Hstep)
    as ((E1 & E2 & E3 & E4) & lines & Hlines & Hlen).
  specialize (IH g1 Hrest).
  destruct (serve _ _ _ rest g1) as [os g2]. cbn [snd] in *.
  destruct IH as [(F1 & F2 & F3 & F4) IH2]. split.
  - unfold same_counters. by rewrite F1, F2, F3, F4.
  - intros Hns. apply Forall_cons in Hns as [Hs Hrest'].
    cbn [handler_name fst] in Hs.
    rewrite (IH2 Hrest').
    destruct g as [a b c e out], g1 as [a1 b1 c1 e1 out1].
    cbn in E1, E2, E3, E4, Hlines. subst.
    destruct h; try done; destruct lines; try done;
      by rewrite app_nil_r.
Qed.


Lemma serve_cons h data d rest g :
  serve reshape_row current_model new_model ((h, data, d) :: rest) g
  = let '(o, g1) := handler_of reshape_row current_model new_model h data d g in
    let '(os, g2) := serve reshape_row current_model new_model rest g1 in
    (o :: os, g2).
Proof. reflexivity. Qed.


(** X4. A canary request evaluates one model only: with the draw below
    [canary_percentage] the outcome is that of [/predict/single] with
    ["model_used": "new"] added to a response, whatever the current
    model is; otherwise it does not depend on the new model at all, so
    a new model that raises costs only the canary share of the
    traffic. *)
Theorem canary_evaluates_one_model data d g (other : Classifier ndarray) :
  (PyFloat.ltb (first_random d) canary_percentage = true ->
   predict_canary reshape_row current_model new_model data d g
   = predict_canary reshape_row other new_model data d g
   /\ predict_canary reshape_row current_model new_model data d g
      = match predict_single reshape_row new_model data d g with
        | (Respond body, g') =>
            (Respond (<[ "model_used" := JStr "new" ]> body), g')
        | refused => refused
        end)
  /\ (PyFloat.ltb (first_random d) canary_percentage = false ->
      predict_canary reshape_row current_model new_model data d g
      = predict_canary reshape_row current_model other data d g).
Proof.
  rewrite !predict_canary_spec, predict_single_spec.
  split; intros ->.
  - split; [reflexivity|].
    destruct (reshape_row _) as [row| |]; [|reflexivity..].
    destruct (predict new_model row); reflexivity.
  - reflexivity.
Qed.


(** With no request served by the current model so far, the bandit
    picks the new model unless exploration says otherwise. *)
Lemma use_new_model_untried_current d g :
  counters_ok g -> current_model_count g = 0 ->
  ~ explores_to false d ->
  fst (use_new_model d g) = Ok true.
Proof.
  intros [Hc Hn] Hzero Hd. unfold use_new_model, explores_to in *.
  destruct (PyFloat.ltb (first_random d) epsilon).
  - destruct (choice_True_False d); [reflexivity|]. by destruct Hd.
  - rewrite exploit_spec. cbn [fst]. rewrite Hzero.
    destruct (success_rate_defined _ _ Hn) as (rate & -> & Hrate & _).
    unfold success_rate at 1. cbn [Z.ltb Z.compare].
    by apply geb_true_iff in Hrate as ->.
Qed.

(** A positive number of successes below [2^54] trials gives a
    positive computed rate. *)
Lemma success_rate_nonzero correct count rate :
  0 < correct <= count -> count < 2 ^ 54 ->
  success_rate correct count = Ok rate -> (0 < rate)%Q.
Proof.
  intros Hc Hbound Hrate.
  destruct (success_rate_error correct count ltac:(lia))
    as (rate' & Hrate' & _ & Hlow).
  assert (rate' = rate) as -> by congruence.
  unfold exact_rate in Hlow.
  destruct (Z.ltb_spec 0 count) as [Hpos|?]; [|lia].
  assert (Hgap : (1 # 2 ^ 54 < correct # Z.to_pos count)%Q).
  { unfold Qlt. cbn [Qnum Qden]. rewrite Z2Pos.id by lia.
    change (Z.pos (2 ^ 54)) with (2 ^ 54). lia. }
  change (1 # 2 ^ 54)%Q with (1 # 18014398509481984)%Q in *.
  lra.
Qed.

Lemma use_new_model_untried_new d g :
  counters_ok g -> new_model_count g = 0 ->
  0 < current_model_correct g -> current_model_count g < 2 ^ 54 ->
  ~ explores_to true d ->
  fst (use_new_model d g) = Ok false.
Proof.
  intros [Hc Hn] Hzero Hpos Hbound Hd. unfold use_new_model, explores_to in *.
  destruct (PyFloat.ltb (first_random d) epsilon).
  - destruct (choice_True_False d); [|reflexivity..]. by destruct Hd.
  - rewrite exploit_spec. cbn [fst]. rewrite Hzero.
    destruct (success_rate_defined _ _ Hc) as (rate & Hrate & _).
    rewrite Hrate.
    apply success_rate_nonzero in Hrate; [|lia|lia].
    unfold success_rate at 1. cbn [Z.ltb Z.compare].
    destruct (PyFloat.geb 0%Q rate) eqn:Hgeb; [|reflexivity..].
    apply geb_true_iff in Hgeb. lra.
Qed.

(** X6. The bandit serves the current model for the first time only
    after an exploration draw picked it: from a state where the
    current model has served nothing, requests none of which explores
    with the coin on the current model are all answered by the new
    model, and the current model's count stays at zero.  In
    particular, traffic that only exploits never tries the current
    model. *)
Theorem current_model_needs_exploration reqs g outs g' :
  counters_ok g -> current_model_count g = 0 ->
  Forall (fun req => ~ explores_to false (snd req)) reqs ->
  serve reshape_row current_model new_model (map to_bandit reqs) g
  = (outs, g') ->
  current_model_count g' = 0 /\ Forall (names_model "new") outs.
Proof.
  revert g outs. induction reqs as [|[data d] rest IH]; intros g outs.
  { intros _ Hzero _ H. cbn [map serve] in H.
    injection H as <- <-. by split. }
  intros Hok Hzero [Hd Hrest]%Forall_cons. cbn [snd] in Hd.
  cbn [map to_bandit fst snd serve handler_of].
  destruct (predict_bandit _ _ _ data d g) as [o g1] eqn:Hstep.
  destruct (serve _ _ _ (map to_bandit rest) g1) as [os g2] eqn:Hrun.
  intros H. injection H as <- <-.
  pose proof (predict_bandit_step _ _ _ _ _ _ _ _ Hstep) as (_ & Hinv & _).
  rewrite predict_bandit_spec in Hstep.
  rewrite (use_new_model_untried_current d g Hok Hzero Hd) in Hstep.
  assert (Hone : current_model_count g1 = 0 /\ names_model "new" o).
  { destruct (reshape_row _) as [row| |];
      [|by apply outcome_pair_inv in Hstep as [<- <-]..].
    destruct (predict new_model row);
      apply outcome_pair_inv in Hstep as [<- <-]; [|done..].
    split; [by destruct (PyFloat.ltb (second_random d) _)|].
    intros body [= <-]. apply lookup_insert_eq. }
  destruct Hone as [Hzero1 Ho].
  destruct (IH g1 os (Hinv Hok) Hzero1 Hrest Hrun) as [Hz Hos].
  split; [done|]. by constructor.
Qed.

(** X7. The converse lock-in: once the current model has a success on
    record and the new model has served nothing, requests none of
    which explores with the coin on the new model are all answered by
    the current model and the new model's count stays at zero (counts
    staying below [2^54], where a positive fraction has a positive
    computed rate). *)
Theorem new_model_needs_exploration reqs g outs g' :
  counters_ok g -> new_model_count g = 0 ->
  0 < current_model_correct g ->
  current_model_count g + Z.of_nat (length reqs) < 2 ^ 54 ->
  Forall (fun req => ~ explores_to true (snd req)) reqs ->
  serve reshape_row current_model new_model (map to_bandit reqs) g
  = (outs, g') ->
  new_model_count g' = 0 /\ Forall (names_model "current") outs.
Proof.
  revert g outs. induction reqs as [|[data d] rest IH]; intros g outs.
  { intros _ Hzero _ _ _ H. cbn [map serve] in H.
    injection H as <- <-. by split. }
  intros Hok Hzero Hpos Hbound [Hd Hrest]%Forall_cons. cbn [snd] in Hd.
  cbn [map to_bandit fst snd serve handler_of].
  destruct (predict_bandit _ _ _ data d g) as [o g1] eqn:Hstep.
  destruct (serve _ _ _ (map to_bandit rest) g1) as [os g2] eqn:Hrun.
  intros H. injection H as <- <-.
  pose proof (predict_bandit_step _ _ _ _ _ _ _ _ Hstep) as (_ & Hinv & _).
  rewrite predict_bandit_spec in Hstep.
  rewrite length_cons, Nat2Z.inj_succ in Hbound.
  rewrite (use_new_model_untried_new d g Hok Hzero Hpos ltac:(lia) Hd)
    in Hstep.
  assert (Hone : new_model_count g1 = 0
                 /\ 0 < current_model_correct g1
                 /\ current_model_count g1 <= current_model_count g + 1
                 /\ names_model "current" o).
  { destruct (reshape_row _) as [row| |];
      [|apply outcome_pair_inv in Hstep as [<- <-];
        repeat split; [done|lia|lia|done]..].
    destruct (predict current_model row);
      apply outcome_pair_inv in Hstep as [<- <-];
      [|repeat split; [done|lia|lia|done]..].
    split; [by destruct (PyFloat.ltb (second_random d) _)|].
    split; [destruct (PyFloat.ltb (second_random d) _); cbn -[Z.add]; lia|].
    split; [destruct (PyFloat.ltb (second_random d) _); cbn -[Z.add]; lia|].
    intros body [= <-]. apply lookup_insert_eq. }
  destruct Hone as (Hzero1 & Hpos1 & Hcount1 & Ho).
  destruct (IH g1 os (Hinv Hok) Hzero1 Hpos1 ltac:(lia) Hrest Hrun)
    as [Hz Hos].
  split; [done|]. by constructor.
Qed.

(** X8. In every state some sequence of requests can produce, both
    success rates are computed without error and are numbers between
    0 and 1. *)
Theorem reachable_rates_are_proportions g :
  reachable reshape_row current_model new_model g ->
  exists current_rate new_rate,
    success_rate (current_model_correct g) (current_model_count g)
    = Ok current_rate
    /\ success_rate (new_model_correct g) (new_model_count g) = Ok new_rate
    /\ (0 <= current_rate <= 1)%Q /\ (0 <= new_rate <= 1)%Q.
Proof.
  intros [Hc Hn]%reachable_counters_ok.
  destruct (success_rate_defined _ _ Hc) as (cur & Hcur & Hcb).
  destruct (success_rate_defined _ _ Hn) as (new & Hnew & Hnb).
  by exists cur, new.
Qed.

(** X9. The shape of every response: [/predict/single] and
    [/predict/silent] answer with the ["prediction"] field alone,
    [/predict/canary] and [/predict/bandit] with ["prediction"] and a
    ["model_used"] that is ["new"] or ["current"]. *)
Theorem response_fields h data d g body g' :
  handler_of reshape_row current_model new_model h data d g
  = (Respond body, g') ->
  exists prediction,
    match h with
    | Single | Silent => body = {[ "prediction" := JInt prediction ]}
    | Canary | Bandit =>
        exists model_used,
          body = <[ "model_used" := JStr model_used ]>
                   {[ "prediction" := JInt prediction ]}
          /\ (model_used = "new" \/ model_used = "current")%string
    end.
Proof.
  destruct h; cbn [handler_of].
  - rewrite predict_single_spec.
    destruct (reshape_row _); [|intros H; same_outcome H..].
    destruct (predict _ _) as [p| |]; intros H; same_outcome H.
    by exists p.
  - rewrite predict_silent_spec.
    destruct (reshape_row _); [|intros H; same_outcome H..].
    destruct (predict current_model _) as [p| |]; [|intros H; same_outcome H..].
    destruct (predict new_model _); intros H; same_outcome H.
    by exists p.
  - rewrite predict_canary_spec.
    destruct (reshape_row _); [|intros H; same_outcome H..].
    destruct (PyFloat.ltb _ _); destruct (predict _ _) as [p| |];
      intros H; same_outcome H; exists p; eexists; eauto.
  - rewrite predict_bandit_spec.
    destruct (reshape_row _); [|intros H; same_outcome H..].
    destruct (fst (use_new_model d g)) as [[|]| |];
      [| |intros H; same_outcome H..];
      destruct (predict _ _) as [p| |];
      intros H; same_outcome H; exists p; eexists; eauto.
Qed.

End MoreHandlerProperties.

(** * Further properties of the metrics notebook *)

Section BanditRounds.

Context {ndarray : Type}.
Variables model_a model_b : Classifier ndarray.
Variable X : list ndarray.
Variable y : list Z.
Variable epsilon : float.

(** Model B is chosen in a round only by exploration or by a strictly
    better record. *)
Lemma chosen_model_b d c :
  arms_ok c -> Metrics.model_b_count c = 0 -> ~ explores_b epsilon d ->
  Metrics.chosen_model epsilon d c = Ok Metrics.A.
Proof.
  intros [Ha Hb] Hzero Hd. unfold Metrics.chosen_model, explores_b in *.
  destruct (PyFloat.ltb (Metrics.np_random d) epsilon).
  - destruct (Metrics.np_choice d); [reflexivity|]. by destruct Hd.
  - rewrite metrics_exploit_spec, Hzero.
    destruct (success_rate_defined _ _ Ha) as (rate & -> & Hrate & _).
    unfold success_rate. cbn [Z.ltb Z.compare].
    by apply geb_true_iff in Hrate as ->.
Qed.

(** One round that completes: the chosen arm's count goes up by one,
    its [correct] by at most one, and the other arm is left alone. *)
Lemma round_counts d c c' :
  arms_ok c ->
  Metrics.round ndarray model_a model_b X y epsilon d c = Ok c' ->
  arms_ok c'
  /\ X <> []
  /\ ((Metrics.chosen_model epsilon d c = Ok Metrics.A
       /\ Metrics.model_a_count c' = Metrics.model_a_count c + 1
       /\ Metrics.model_b_count c' = Metrics.model_b_count c)
      \/ (Metrics.chosen_model epsilon d c = Ok Metrics.B
          /\ Metrics.model_a_count c' = Metrics.model_a_count c
          /\ Metrics.model_b_count c' = Metrics.model_b_count c + 1)).
Proof.
  intros [Ha Hb]. unfold Metrics.round, Metrics.randint, arms_ok.
  unfold mbind, mret, pyresult_bind, pyresult_ret.
  destruct (Metrics.chosen_model epsilon d c) as [chosen| |]; [|done..].
  destruct X as [|x0 rest]; [done|].
  destruct (Metrics.sample ndarray _ _ _) as [[x true_y]| |]; [|done..].
  destruct chosen.
  - destruct (predict model_a x) as [pred| |]; [|done..].
    intros [= <-]. cbn -[Z.add].
    split; [destruct (pred =? true_y); lia|].
    split; [done|]. left. done.
  - destruct (predict model_b x) as [pred| |]; [|done..].
    intros [= <-]. cbn -[Z.add].
    split; [destruct (pred =? true_y); lia|].
    split; [done|]. right. done.
Qed.

(** Counters along the loop. *)
Lemma rounds_counts draws n i c c' :
  arms_ok c ->
  Metrics.rounds ndarray model_a model_b X y epsilon draws n i c = Ok c' ->
  arms_ok c'
  /\ Metrics.model_a_count c <= Metrics.model_a_count c'
  /\ Metrics.model_b_count c <= Metrics.model_b_count c'
  /\ Metrics.model_a_count c' + Metrics.model_b_count c'
     = Metrics.model_a_count c + Metrics.model_b_count c + Z.of_nat n.
Proof.
  revert i c. induction n as [|n IH]; intros i c Hok.
  { cbn [Metrics.rounds]. intros [= <-]. repeat split; try apply Hok; lia. }
  cbn [Metrics.rounds]. unfold mbind, pyresult_bind.
  destruct (Metrics.round ndarray _ _ _ _ _ (draws i) c) as [c1| |] eqn:Hround;
    [|done..].
  intros Hrest.
  destruct (round_counts _ _ _ Hok Hround) as (Hok1 & _ & Hstep).
  destruct (IH _ _ Hok1 Hrest) as (Hok' & Hle_a & Hle_b & Hsum).
  split; [done|]. lia.
Qed.

(** X10. The loop of [multi_armed_bandit] keeps each arm's [correct]
    between zero and its [count], never lowers a count, and after [n]
    completed rounds the two counts have grown by [n] together. *)
Theorem rounds_keep_arm_counters draws n i c c' :
  arms_ok c ->
  Metrics.rounds ndarray model_a model_b X y epsilon draws n i c = Ok c' ->
  arms_ok c'
  /\ Metrics.model_a_count c <= Metrics.model_a_count c'
  /\ Metrics.model_b_count c <= Metrics.model_b_count c'
  /\ Metrics.model_a_count c' + Metrics.model_b_count c'
     = Metrics.model_a_count c + Metrics.model_b_count c + Z.of_nat n.
Proof. apply rounds_counts. Qed.

(** An untried model B along rounds that do not explore towards it. *)
Lemma rounds_leave_b_untried draws n i c c' :
  arms_ok c -> Metrics.model_b_count c = 0 ->
  (forall j, (i <= j < i + n)%nat -> ~ explores_b epsilon (draws j)) ->
  Metrics.rounds ndarray model_a model_b X y epsilon draws n i c = Ok c' ->
  Metrics.model_b_count c' = 0
  /\ Metrics.model_a_count c' = Metrics.model_a_count c + Z.of_nat n.
Proof.
  revert i c. induction n as [|n IH]; intros i c Hok Hzero Hdraws.
  { cbn [Metrics.rounds]. intros [= <-]. lia. }
  cbn [Metrics.rounds]. unfold mbind, pyresult_bind.
  destruct (Metrics.round ndarray _ _ _ _ _ (draws i) c) as [c1| |] eqn:Hround;
    [|done..].
  intros Hrest.
  destruct (round_counts _ _ _ Hok Hround) as (Hok1 & _ & Hstep).
  rewrite (chosen_model_b _ _ Hok Hzero (Hdraws i ltac:(lia))) in Hstep.
  destruct Hstep as [(_ & Ha1 & Hb1)|(Hchosen & _)]; [|done..].
  destruct (IH (S i) c1 Hok1 ltac:(lia)
              ltac:(intros j Hj; apply Hdraws; lia) Hrest) as [Hb' Ha'].
  lia.
Qed.

(** X11. Model B is chosen for the first time only by exploration: as
    long as no round explores with the coin on B, every completed
    round goes to model A and B's count stays at zero, since an
    untried arm has rate 0 and ties go to A. *)
Theorem model_b_needs_exploration draws n i c c' :
  arms_ok c -> Metrics.model_b_count c = 0 ->
  (forall j, (i <= j < i + n)%nat -> ~ explores_b epsilon (draws j)) ->
  Metrics.rounds ndarray model_a model_b X y epsilon draws n i c = Ok c' ->
  Metrics.model_b_count c' = 0
  /\ Metrics.model_a_count c' = Metrics.model_a_count c + Z.of_nat n.
Proof. apply rounds_leave_b_untried. Qed.

Lemma truediv_success_rate correct count :
  0 < count -> PyFloat.truediv correct count = success_rate correct count.
Proof.
  intros H. unfold success_rate.
  by destruct (Z.ltb_spec 0 count); [|lia].
Qed.

(** X12. [multi_armed_bandit] completes only when both models were
    chosen at least once, hence never with fewer than two rounds; the
    counts it reports then add up to [n_rounds] and both accuracies
    lie between 0 and 1. *)
Theorem multi_armed_bandit_needs_both_arms draws n_rounds
    accuracy_a accuracy_b count_a count_b :
  Metrics.multi_armed_bandit ndarray model_a model_b X y epsilon
    draws n_rounds
  = Ok (accuracy_a, accuracy_b, count_a, count_b) ->
  0 < count_a /\ 0 < count_b /\ count_a + count_b = n_rounds
  /\ 2 <= n_rounds
  /\ (0 <= accuracy_a <= 1)%Q /\ (0 <= accuracy_b <= 1)%Q.
Proof.
  unfold Metrics.multi_armed_bandit, mbind, mret, pyresult_bind,
    pyresult_ret.
  destruct (Metrics.rounds ndarray _ _ _ _ _ draws _ _ _) as [c| |]
    eqn:Hrounds; [|done..].
  assert (Hstart : arms_ok (Metrics.mkCounters 0 0 0 0))
    by (unfold arms_ok; cbn; lia).
  destruct (rounds_counts _ _ _ _ _ Hstart Hrounds)
    as ([Ha Hb] & Hle_a & Hle_b & Hsum).
  cbn [Metrics.model_a_count Metrics.model_b_count] in Hle_a, Hle_b, Hsum.
  destruct (Z.eq_dec (Metrics.model_a_count c) 0) as [Ha0|Ha0].
  { rewrite Ha0. unfold PyFloat.truediv. cbn [Z.eqb]. done. }
  destruct (Z.eq_dec (Metrics.model_b_count c) 0) as [Hb0|Hb0].
  { rewrite Hb0. unfold PyFloat.truediv at 2. cbn [Z.eqb].
    by destruct (PyFloat.truediv _ _). }
  rewrite !truediv_success_rate by lia.
  destruct (success_rate_defined _ _ Ha) as (ra & -> & Hra).
  destruct (success_rate_defined _ _ Hb) as (rb & -> & Hrb).
  intros [= <- <- <- <-].
  split; [lia|]. split; [lia|].
  assert (Hn : 0 <= n_rounds) by lia.
  rewrite Z2Nat.id in Hsum
    by (destruct n_rounds; [lia|lia|]; cbn in Hsum; lia).
  split; [lia|]. split; [lia|]. done.
Qed.

(** X13. What the report looks like when no round explores with the
    coin on B (in particular with [epsilon] at 0): if the rounds
    complete and there is at least one, the function prints model A's
    accuracy line and then fails with [ZeroDivisionError] on model
    B's, printing neither B's accuracy nor the two counts. *)
Theorem report_stops_at_untried_model draws n_rounds :
  0 < n_rounds ->
  (forall j, ~ explores_b epsilon (draws j)) ->
  forall c,
    Metrics.rounds ndarray model_a model_b X y epsilon draws
      (Z.to_nat n_rounds) 0%nat (Metrics.mkCounters 0 0 0 0)
    = Ok c ->
    exists accuracy_a,
      PyFloat.truediv (Metrics.model_a_correct c) n_rounds = Ok accuracy_a
      /\ multi_armed_bandit_stdout model_a model_b X y epsilon
           draws n_rounds
         = ([ "Model A (Logistic Regression) accuracy: "
              +:+ format_4f accuracy_a ],
            Raise ZeroDivisionError).
Proof.
  intros Hn Hdraws c Hrounds.
  assert (Hstart : arms_ok (Metrics.mkCounters 0 0 0 0))
    by (unfold arms_ok; cbn; lia).
  destruct (rounds_counts _ _ _ _ _ Hstart Hrounds)
    as ([Ha Hb] & _).
  destruct (rounds_leave_b_untried _ _ _ _ _ Hstart eq_refl
              ltac:(intros j _; apply Hdraws) Hrounds) as [Hb0 Ha_n].
  cbn [Metrics.model_a_count] in Ha_n. rewrite Z2Nat.id in Ha_n by lia.
  rewrite Z.add_0_l in Ha_n.
  rewrite Ha_n in Ha.
  destruct (success_rate_defined _ _ Ha) as (ra & Hra & _).
  rewrite <- truediv_success_rate in Hra by lia.
  exists ra. split; [done|].
  unfold multi_armed_bandit_stdout. rewrite Hrounds, Ha_n, Hra, Hb0.
  reflexivity.
Qed.

(** X14. Edge cases of the call: with [n_rounds] at most zero the
    loop does not run and the first report line already divides by
    zero, so nothing is printed; with an empty [X] and at least one
    round, the first round fails in [randint(0, 0)] with the
    [ValueError] numpy raises for an upper bound of zero, and nothing
    is printed either. *)
Theorem multi_armed_bandit_degenerate_calls draws n_rounds :
  (n_rounds <= 0 ->
   multi_armed_bandit_stdout model_a model_b X y epsilon draws n_rounds
   = ([], Raise ZeroDivisionError))
  /\ (0 < n_rounds -> X = [] ->
      multi_armed_bandit_stdout model_a model_b X y epsilon draws n_rounds
      = ([], Raise (Metrics.ValueError "high <= 0"))).
Proof.
  split.
  - intros Hn. unfold multi_armed_bandit_stdout.
    replace (Z.to_nat n_rounds) with O by lia. reflexivity.
  - intros Hn HX. unfold multi_armed_bandit_stdout.
    destruct (Z.to_nat n_rounds) as [|n] eqn:Hnat; [lia|].
    cbn [Metrics.rounds]. unfold mbind, pyresult_bind.
    assert (Hround :
      Metrics.round ndarray model_a model_b X y epsilon (draws 0%nat)
        (Metrics.mkCounters 0 0 0 0)
      = Raise (Metrics.ValueError "high <= 0")).
    { unfold Metrics.round, mbind, pyresult_bind, Metrics.randint.
      rewrite HX.
      assert (Hstart : arms_ok (Metrics.mkCounters 0 0 0 0))
        by (unfold arms_ok; cbn; lia).
      unfold Metrics.chosen_model.
      destruct (PyFloat.ltb _ _); [reflexivity|].
      reflexivity. }
    by rewrite Hround.
Qed.

End BanditRounds.

Section ABTestProperties.

Variable accuracy_score : list Z -> list Z -> PyResult float.

Lemma ltb_true_iff x y : PyFloat.ltb x y = true <-> (x < y)%Q.
Proof.
  destruct (PyFloat.ltb x y) eqn:H.
  - split; [intros _|done]. apply Qnot_le_lt. intros Hle%ltb_false_iff.
    congruence.
  - apply ltb_false_iff in H. split; [done|]. intros Hlt.
    by apply Qlt_not_le in Hlt.
Qed.

Lemma ten_thousandths_mono a b :
  (0 <= a)%Q -> (a <= b)%Q -> ten_thousandths a <= ten_thousandths b.
Proof.
  intros H0 Hle. unfold ten_thousandths.
  assert (H0b : (0 <= b)%Q) by lra.
  unfold Qle in *. cbn [Qnum Qden] in *.
  rewrite !Z.abs_eq by lia.
  apply round_half_even_mono; lia.
Qed.

(** X15. The verdict of [ab_test] never contradicts the two accuracies
    printed above it: when the printed four-place values differ, the
    verdict names the model with the larger one, and it reads "equal"
    exactly when the two scores are equal.  The scores are compared
    unrounded, so the verdict can still name a model when both lines
    print the same value. *)
Theorem ab_test_verdict_follows_printed_scores
    model_a_preds model_b_preds true_labels a b :
  accuracy_score true_labels model_a_preds = Ok a ->
  accuracy_score true_labels model_b_preds = Ok b ->
  (0 <= a)%Q -> (0 <= b)%Q ->
  exists verdict,
    ab_test accuracy_score model_a_preds model_b_preds true_labels
    = Ok [ "Model A Accuracy: " +:+ format_4f a;
           "Model B Accuracy: " +:+ format_4f b;
           verdict ]
    /\ (ten_thousandths b < ten_thousandths a ->
        verdict = "Model A (Logistic Regression) performs better."%string)
    /\ (ten_thousandths a < ten_thousandths b ->
        verdict = "Model B (Random Forest) performs better."%string)
    /\ (verdict = "Both models perform equally."%string <-> (a == b)%Q).
Proof.
  intros Ha Hb Ha0 Hb0. unfold ab_test, mbind, mret, pyresult_bind,
    pyresult_ret. rewrite Ha, Hb.
  eexists. split; [reflexivity|].
  destruct (PyFloat.ltb b a) eqn:Hba; [|destruct (PyFloat.ltb a b) eqn:Hab].
  - apply ltb_true_iff in Hba. split; [done|]. split.
    + intros Hlt.
      pose proof (ten_thousandths_mono b a Hb0 ltac:(lra)). lia.
    + split; [done|]. intros Heq. lra.
  - apply ltb_true_iff in Hab. split.
    + intros Hlt.
      pose proof (ten_thousandths_mono a b Ha0 ltac:(lra)). lia.
    + split; [done|]. split; [done|]. intros Heq. lra.
  - apply ltb_false_iff in Hba, Hab. split.
    + intros Hlt.
      pose proof (ten_thousandths_mono a b Ha0 Hba). lia.
    + split.
      * intros Hlt.
        pose proof (ten_thousandths_mono b a Hb0 Hab). lia.
      * split; [intros _; lra|done].
Qed.

(** X16. [ab_test] treats its two models alike: swapping the two
    prediction lists swaps "Model A performs better" with "Model B
    performs better" and keeps "equal", unlike the bandit, where a tie
    goes to one fixed side. *)
Theorem ab_test_swap model_a_preds model_b_preds true_labels
    line_a line_b verdict :
  ab_test accuracy_score model_a_preds model_b_preds true_labels
  = Ok [line_a; line_b; verdict] ->
  exists line_a' line_b' verdict',
    ab_test accuracy_score model_b_preds model_a_preds true_labels
    = Ok [line_a'; line_b'; verdict']
    /\ (verdict = "Model A (Logistic Regression) performs better."%string
        <-> verdict' = "Model B (Random Forest) performs better."%string)
    /\ (verdict = "Model B (Random Forest) performs better."%string
        <-> verdict' = "Model A (Logistic Regression) performs better."%string)
    /\ (verdict = "Both models perform equally."%string
        <-> verdict' = "Both models perform equally."%string).
Proof.
  unfold ab_test, mbind, mret, pyresult_bind, pyresult_ret.
  destruct (accuracy_score true_labels model_a_preds) as [a| |]; [|done..].
  destruct (accuracy_score true_labels model_b_preds) as [b| |]; [|done..].
  intros [= <- <- <-]. do 3 eexists. split; [reflexivity|].
  destruct (PyFloat.ltb b a) eqn:Hba; destruct (PyFloat.ltb a b) eqn:Hab;
    [|done..].
  apply ltb_true_iff in Hba, Hab. lra.
Qed.

End ABTestProperties.

(** ** The further properties at concrete requests *)

Lemma runs_without_bandit_keep_counters_witness :
  let run := serve Demo.reshape_row Demo.current_model Demo.new_model
               Demo2.silent_then_single Demo.some_globals in
  Forall (fun req => handler_name req <> Bandit) Demo2.silent_then_single
  /\ same_counters Demo.some_globals (snd run)
  /\ length (stdout (snd run)) = 2%nat.
Proof.
  intros run.
  assert (Hreqs : Forall (fun req : Handler * InputData Z * Draws =>
                            handler_name req <> Bandit)
                         Demo2.silent_then_single)
    by (repeat constructor; discriminate).
  split; [exact Hreqs|]. split; [|reflexivity..].
  exact (proj1 (runs_without_bandit_keep_counters Demo.reshape_row
                  Demo.current_model Demo.new_model
                  Demo2.silent_then_single Demo.some_globals Hreqs)).
Defined.



Lemma canary_evaluates_one_model_witness :
  PyFloat.ltb (first_random Demo.exploit_draws) canary_percentage = false
  /\ predict_canary Demo.reshape_row Demo.current_model Demo.new_model
       Demo.data Demo.exploit_draws initial_globals
     = predict_canary Demo.reshape_row Demo.current_model Demo.failing_model
         Demo.data Demo.exploit_draws initial_globals.
Proof.
  split; [reflexivity|].
  exact (proj2 (canary_evaluates_one_model Demo.reshape_row
                  Demo.current_model Demo.new_model Demo.data
                  Demo.exploit_draws initial_globals Demo.failing_model)
               eq_refl).
Defined.


Lemma current_model_needs_exploration_witness :
  let run := serve Demo.reshape_row Demo.current_model Demo.new_model
               (map to_bandit Demo2.exploit_requests) initial_globals in
  counters_ok initial_globals
  /\ Forall (fun req : InputData Z * Draws => ~ explores_to false (snd req))
            Demo2.exploit_requests
  /\ forallb is_response (fst run) = true
  /\ current_model_count (snd run) = 0
  /\ Forall (names_model "new") (fst run).
Proof.
  intros run.
  assert (Hok : counters_ok initial_globals)
    by (unfold counters_ok; cbn; lia).
  assert (Hreqs : Forall (fun req : InputData Z * Draws =>
                            ~ explores_to false (snd req))
                         Demo2.exploit_requests)
    by (repeat (apply Forall_cons; split; [intros [H _]; vm_compute in H;
                                           discriminate H|]);
        apply Forall_nil_2).
  split; [exact Hok|]. split; [exact Hreqs|]. split; [reflexivity|].
  exact (current_model_needs_exploration Demo.reshape_row Demo.current_model
           Demo.new_model Demo2.exploit_requests initial_globals
           (fst run) (snd run) Hok eq_refl Hreqs eq_refl).
Defined.

Lemma new_model_needs_exploration_witness :
  let run := serve Demo.reshape_row Demo.current_model Demo.new_model
               (map to_bandit Demo2.exploit_requests) Demo2.current_leads in
  counters_ok Demo2.current_leads
  /\ Forall (fun req : InputData Z * Draws => ~ explores_to true (snd req))
            Demo2.exploit_requests
  /\ forallb is_response (fst run) = true
  /\ new_model_count (snd run) = 0
  /\ Forall (names_model "current") (fst run).
Proof.
  intros run.
  assert (Hok : counters_ok Demo2.current_leads)
    by (unfold counters_ok; cbn; lia).
  assert (Hreqs : Forall (fun req : InputData Z * Draws =>
                            ~ explores_to true (snd req))
                         Demo2.exploit_requests)
    by (repeat (apply Forall_cons; split; [intros [H _]; vm_compute in H;
                                           discriminate H|]);
        apply Forall_nil_2).
  split; [exact Hok|]. split; [exact Hreqs|]. split; [reflexivity|].
  exact (new_model_needs_exploration Demo.reshape_row Demo.current_model
           Demo.new_model Demo2.exploit_requests Demo2.current_leads
           (fst run) (snd run) Hok eq_refl eq_refl eq_refl Hreqs eq_refl).
Defined.

Lemma reachable_rates_are_proportions_witness :
  let g := snd (serve Demo.reshape_row Demo.current_model Demo.new_model
                  (map to_bandit Demo.three_requests) initial_globals) in
  exists current_rate new_rate,
    success_rate (current_model_correct g) (current_model_count g)
    = Ok current_rate
    /\ success_rate (new_model_correct g) (new_model_count g) = Ok new_rate
    /\ (0 <= current_rate <= 1)%Q /\ (0 <= new_rate <= 1)%Q.
Proof.
  intros g.
  exact (reachable_rates_are_proportions Demo.reshape_row Demo.current_model
           Demo.new_model g
           (ex_intro _ (map to_bandit Demo.three_requests) eq_refl)).
Defined.

Lemma response_fields_witness :
  exists prediction model_used,
    (<[ "model_used" := JStr "new" ]> {[ "prediction" := JInt 1 ]} : Json)
    = <[ "model_used" := JStr model_used ]>
        {[ "prediction" := JInt prediction ]}
    /\ (model_used = "new" \/ model_used = "current")%string.
Proof.
  exact (response_fields Demo.reshape_row Demo.current_model Demo.new_model
           Canary Demo.data Demo.canary_draws initial_globals
           _ initial_globals eq_refl).
Defined.

Lemma rounds_keep_arm_counters_witness :
  exists c,
    Metrics.rounds (list Z) Demo.current_model Demo.new_model Demo2.X Demo2.y
      epsilon Demo2.exploit_then_explore_b 3 0 (Metrics.mkCounters 0 0 0 0)
    = Ok c
    /\ arms_ok c
    /\ Metrics.model_a_count c + Metrics.model_b_count c = 3.
Proof.
  eexists. split; [reflexivity|].
  assert (Hstart : arms_ok (Metrics.mkCounters 0 0 0 0))
    by (unfold arms_ok; cbn; lia).
  destruct (rounds_keep_arm_counters Demo.current_model Demo.new_model
              Demo2.X Demo2.y epsilon Demo2.exploit_then_explore_b 3 0
              (Metrics.mkCounters 0 0 0 0) _ Hstart eq_refl)
    as (Hok & _ & _ & Hsum).
  split; [exact Hok|exact Hsum].
Defined.

Lemma model_b_needs_exploration_witness :
  exists c,
    Metrics.rounds (list Z) Demo.current_model Demo.new_model Demo2.X Demo2.y
      epsilon Demo2.always_exploit 3 0 (Metrics.mkCounters 0 0 0 0)
    = Ok c
    /\ Metrics.model_b_count c = 0
    /\ Metrics.model_a_count c = 0 + 3.
Proof.
  eexists. split; [reflexivity|].
  assert (Hstart : arms_ok (Metrics.mkCounters 0 0 0 0))
    by (unfold arms_ok; cbn; lia).
  refine (model_b_needs_exploration Demo.current_model Demo.new_model
            Demo2.X Demo2.y epsilon Demo2.always_exploit 3 0
            (Metrics.mkCounters 0 0 0 0) _ Hstart eq_refl _ eq_refl).
  intros j _ [H _]. vm_compute in H. discriminate H.
Defined.

Lemma multi_armed_bandit_needs_both_arms_witness :
  exists accuracy_a accuracy_b,
    Metrics.multi_armed_bandit (list Z) Demo.current_model Demo.new_model
      Demo2.X Demo2.y epsilon Demo2.exploit_then_explore_b 2
    = Ok (accuracy_a, accuracy_b, 1, 1)
    /\ 0 < 1 /\ 0 < 1 /\ 1 + 1 = 2 /\ 2 <= 2
    /\ (0 <= accuracy_a <= 1)%Q /\ (0 <= accuracy_b <= 1)%Q.
Proof.
  do 2 eexists.
  assert (Hrun :
    Metrics.multi_armed_bandit (list Z) Demo.current_model Demo.new_model
      Demo2.X Demo2.y epsilon Demo2.exploit_then_explore_b 2
    = Ok (_, _, 1, 1)) by reflexivity.
  split; [exact Hrun|].
  exact (multi_armed_bandit_needs_both_arms Demo.current_model
           Demo.new_model Demo2.X Demo2.y epsilon
           Demo2.exploit_then_explore_b 2 _ _ _ _ Hrun).
Defined.

Lemma report_stops_at_untried_model_witness :
  exists accuracy_a,
    PyFloat.truediv 3 3 = Ok accuracy_a
    /\ multi_armed_bandit_stdout Demo.current_model Demo.new_model
         Demo2.X Demo2.y epsilon Demo2.always_exploit 3
       = ([ "Model A (Logistic Regression) accuracy: "
            +:+ format_4f accuracy_a ],
          Raise ZeroDivisionError).
Proof.
  refine (report_stops_at_untried_model Demo.current_model Demo.new_model
            Demo2.X Demo2.y epsilon Demo2.always_exploit 3 eq_refl _
            (Metrics.mkCounters 3 0 3 0) eq_refl).
  intros j [H _]. vm_compute in H. discriminate H.
Defined.

Lemma multi_armed_bandit_degenerate_calls_witness :
  multi_armed_bandit_stdout Demo.current_model Demo.new_model
    [] Demo2.y epsilon Demo2.always_exploit 3
  = ([], Raise (Metrics.ValueError "high <= 0")).
Proof.
  exact (proj2 (multi_armed_bandit_degenerate_calls Demo.current_model
                  Demo.new_model [] Demo2.y epsilon Demo2.always_exploit 3)
               eq_refl eq_refl).
Defined.

Lemma ab_test_verdict_follows_printed_scores_witness :
  let a := (4503599627370496 # 4503599627370496)%Q in
  let b := (6004799503160661 # 9007199254740992)%Q in
  Demo2.accuracy_score [0; 1; 1] [0; 1; 1] = Ok a
  /\ Demo2.accuracy_score [0; 1; 1] [0; 0; 1] = Ok b
  /\ exists verdict,
       ab_test Demo2.accuracy_score [0; 1; 1] [0; 0; 1] [0; 1; 1]
       = Ok [ "Model A Accuracy: " +:+ format_4f a;
              "Model B Accuracy: " +:+ format_4f b;
              verdict ]
       /\ (ten_thousandths b < ten_thousandths a ->
           verdict
           = "Model A (Logistic Regression) performs better."%string)
       /\ (ten_thousandths a < ten_thousandths b ->
           verdict = "Model B (Random Forest) performs better."%string)
       /\ (verdict = "Both models perform equally."%string <-> (a == b)%Q).
Proof.
  intros a b. split; [reflexivity|]. split; [reflexivity|].
  apply (ab_test_verdict_follows_printed_scores Demo2.accuracy_score
           [0; 1; 1] [0; 0; 1] [0; 1; 1] a b eq_refl eq_refl);
    discriminate.
Defined.

Lemma ab_test_swap_witness :
  exists line_a' line_b' verdict',
    ab_test Demo2.accuracy_score [0; 0; 1] [0; 1; 1] [0; 1; 1]
    = Ok [line_a'; line_b'; verdict']
    /\ ("Model A (Logistic Regression) performs better."%string
        = "Model A (Logistic Regression) performs better."%string
        <-> verdict' = "Model B (Random Forest) performs better."%string)
    /\ ("Model A (Logistic Regression) performs better."%string
        = "Model B (Random Forest) performs better."%string
        <-> verdict'
            = "Model A (Logistic Regression) performs better."%string)
    /\ ("Model A (Logistic Regression) performs better."%string
        = "Both models perform equally."%string
        <-> verdict' = "Both models perform equally."%string).
Proof.
  exact (ab_test_swap Demo2.accuracy_score [0; 1; 1] [0; 0; 1] [0; 1; 1]
           _ _ _ eq_refl).
Defined.
